(** * Report generator (src/App.tsx): dataset typing, summary, upload and
      analysis handlers, and the export renderer.

    The component's algorithmic parts are embedded as Rocq functions:
    - [analyzeDataTypes] (per-column type inference),
    - the [DataSummary] literal built by [analyzeData],
    - [handleFileUpload] and [analyzeData] as transformers of the component
      state, the answers of the file, parser and network collaborators being
      part of their input,
    - [marked], the chain of seven global regular-expression replacements.

    Strings are byte strings holding the UTF-8 encoding of the JavaScript
    string. *)

From Stdlib Require Import ZArith Lia List Ascii String Bool.
From Stdlib Require Import Floats.PrimFloat.
From stdpp Require Import base option list gmap strings.

Import ListNotations.
Local Open Scope string_scope.

(** ** JavaScript scalars *)

(** The values a cell of a row holds: number, string, boolean or null;
    [JUndefined] is what reading a missing key of a row gives. *)
Inductive JSValue : Type :=
| JUndefined
| JNull
| JBool (b : bool)
| JNumber (n : float)
| JString (s : string).


(** [v != null]: loose inequality, false on both [null] and [undefined]. *)
Definition neq_null (v : JSValue) : bool :=
  match v with
  | JUndefined | JNull => false
  | _ => true
  end.

(** A thrown value as the handlers' [catch] clauses read it:
    [err instanceof Error ? err.message : "Unknown error"]. *)
Inductive JSError : Type :=
| ErrorObject (message : string)
| NonError.

Definition errorMessage (err : JSError) : string :=
  match err with
  | ErrorObject m => m
  | NonError => "Unknown error"
  end.

(** The settlement of an awaited promise, or of a call that may throw. *)
Inductive JSResult (A : Type) : Type :=
| Returns (a : A)
| Throws (err : JSError).
Arguments Returns {A} a.
Arguments Throws {A} err.

(** ** Rows *)

(** [interface DataRow { [key: string]: any }]: the own properties of the
    row object, keys unique. *)
Definition DataRow : Type := list (string * JSValue).

(** [row[header]]: the property's value, [undefined] when it is missing. *)
Fixpoint row_get (row : DataRow) (header : string) : JSValue :=
  match row with
  | [] => JUndefined
  | (k, v) :: rest => if String.eqb k header then v else row_get rest header
  end.

(** ** Line terminators and ASCII helpers *)

Definition LF : ascii := ascii_of_nat 10.
Definition CR : ascii := ascii_of_nat 13.

Definition is_digit (c : ascii) : bool :=
  let n := nat_of_ascii c in (48 <=? n)%nat && (n <=? 57)%nat.

Definition digit_val (c : ascii) : Z := (Z.of_nat (nat_of_ascii c) - 48)%Z.

(** ** [Date.parse]

    [Date.parse] belongs to the JavaScript engine. ECMA-262 fixes its result
    on the Date Time String Format only and leaves every other string to the
    engine, so type inference takes it as a parameter:
    a function from the string to the time value, [None] standing for [NaN].

    [Date_parse_date_only] is one such function, used to instantiate the
    parameter: it reads the format's date-only forms [YYYY], [YYYY-MM]
    and [YYYY-MM-DD] (UTC midnight) and answers [NaN] on every other
    string. *)

Definition is_leap (y : Z) : bool :=
  ((y mod 4 =? 0) && negb (y mod 100 =? 0) || (y mod 400 =? 0))%Z.

Definition days_in_month (y m : Z) : Z :=
  (if m =? 2 then (if is_leap y then 29 else 28)
   else if (m =? 4) || (m =? 6) || (m =? 9) || (m =? 11) then 30
   else 31)%Z.

(** Days from 1970-01-01 to the civil date [y]-[m]-[d]. *)
Definition days_from_civil (y m d : Z) : Z :=
  (let y' := if m <=? 2 then y - 1 else y in
   let era := y' / 400 in
   let yoe := y' - era * 400 in
   let mp := (m + 9) mod 12 in
   let doy := (153 * mp + 2) / 5 + d - 1 in
   let doe := yoe * 365 + yoe / 4 - yoe / 100 + doy in
   era * 146097 + doe - 719468)%Z.

Definition msPerDay : Z := 86400000%Z.

Fixpoint digits_val (acc : Z) (cs : list ascii) : option Z :=
  match cs with
  | [] => Some acc
  | c :: cs' => if is_digit c then digits_val (10 * acc + digit_val c)%Z cs' else None
  end.

Definition number_of (cs : list ascii) : option Z := digits_val 0%Z cs.

Definition make_date (y m d : Z) : option Z :=
  if ((1 <=? m) && (m <=? 12) && (1 <=? d) && (d <=? days_in_month y m))%Z
  then Some (days_from_civil y m d * msPerDay)%Z
  else None.

Definition Date_parse_date_only (s : string) : option Z :=
  match list_ascii_of_string s with
  | [y1; y2; y3; y4] =>
      y ← number_of [y1; y2; y3; y4]; make_date y 1%Z 1%Z
  | [y1; y2; y3; y4; "-"%char; m1; m2] =>
      y ← number_of [y1; y2; y3; y4];
      m ← number_of [m1; m2]; make_date y m 1%Z
  | [y1; y2; y3; y4; "-"%char; m1; m2; "-"%char; d1; d2] =>
      y ← number_of [y1; y2; y3; y4];
      m ← number_of [m1; m2];
      d ← number_of [d1; d2]; make_date y m d
  | _ => None
  end.

(** [isNaN(x)] on a result of [Date.parse]. *)
Definition isNaN (t : option Z) : bool :=
  match t with
  | None => true
  | Some _ => false
  end.

(** ** Type inference *)

Section TypeInference.

Variable Date_parse : string -> option Z.

(** The two last branches of the classification, on the string handed to
    [Date.parse]. *)
Definition date_or_text (s : string) : string :=
  if negb (isNaN (Date_parse s)) then "date" else "text".

(** The [if / else if / else] of [analyzeDataTypes] on the sample.
    [Date.parse(sample)] converts its argument with ToString; it is reached
    only when [typeof sample] is not ["number"], where ToString is the
    string itself, ["true"] or ["false"], ["null"], or ["undefined"]. *)
Definition sample_type (sample : JSValue) : string :=
  match sample with
  | JNumber _ => "numeric"
  | JString s => date_or_text s
  | JBool b => date_or_text (if b then "true" else "false")
  | JNull => date_or_text "null"
  | JUndefined => date_or_text "undefined"
  end.

(** [data.map((row) => row[header]).filter((v) => v != null)]. *)
Definition column_values (data : list DataRow) (header : string) : list JSValue :=
  List.filter neq_null (List.map (fun row => row_get row header) data).

(** [values[0]]: [undefined] on the empty array. *)
Definition column_sample (data : list DataRow) (header : string) : JSValue :=
  nth 0 (column_values data header) JUndefined.

(** [analyzeDataTypes(data, headers)]: the [types] object after the
    [forEach] over [headers], each step assigning [types[header]]. *)
Definition analyzeDataTypes (data : list DataRow) (headers : list string)
  : gmap string string :=
  foldl (fun types header =>
           <[ header := sample_type (column_sample data header) ]> types)
        ∅ headers.

End TypeInference.

(** ** The component state

    The eight [useState] cells of [DataAnalysisReportGenerator]. A handler
    reads the cells of the render it was created in and calls setters; its
    model maps that state to the state after its setter calls, applied in
    program order, no other handler running in between. *)

(** A [File] of the file input: its name and how its two reading promises
    settle. *)
Record File : Type := {
  file_name : string;
  file_text : JSResult string;
  file_arrayBuffer : JSResult (list Byte.byte)
}.

Record State : Type := {
  file : option File;
  fileName : string;
  data : option (list DataRow);
  headers : list string;
  isAnalyzing : bool;
  report : option string;
  error : option string;
  regeneratePrompt : string
}.

Definition setFile (v : option File) (st : State) : State :=
  {| file := v; fileName := st.(fileName); data := st.(data);
     headers := st.(headers); isAnalyzing := st.(isAnalyzing);
     report := st.(report); error := st.(error);
     regeneratePrompt := st.(regeneratePrompt) |}.

Definition setFileName (v : string) (st : State) : State :=
  {| file := st.(file); fileName := v; data := st.(data);
     headers := st.(headers); isAnalyzing := st.(isAnalyzing);
     report := st.(report); error := st.(error);
     regeneratePrompt := st.(regeneratePrompt) |}.

Definition setData (v : option (list DataRow)) (st : State) : State :=
  {| file := st.(file); fileName := st.(fileName); data := v;
     headers := st.(headers); isAnalyzing := st.(isAnalyzing);
     report := st.(report); error := st.(error);
     regeneratePrompt := st.(regeneratePrompt) |}.

Definition setHeaders (v : list string) (st : State) : State :=
  {| file := st.(file); fileName := st.(fileName); data := st.(data);
     headers := v; isAnalyzing := st.(isAnalyzing);
     report := st.(report); error := st.(error);
     regeneratePrompt := st.(regeneratePrompt) |}.

Definition setIsAnalyzing (v : bool) (st : State) : State :=
  {| file := st.(file); fileName := st.(fileName); data := st.(data);
     headers := st.(headers); isAnalyzing := v;
     report := st.(report); error := st.(error);
     regeneratePrompt := st.(regeneratePrompt) |}.

Definition setReport (v : option string) (st : State) : State :=
  {| file := st.(file); fileName := st.(fileName); data := st.(data);
     headers := st.(headers); isAnalyzing := st.(isAnalyzing);
     report := v; error := st.(error);
     regeneratePrompt := st.(regeneratePrompt) |}.

Definition setError (v : option string) (st : State) : State :=
  {| file := st.(file); fileName := st.(fileName); data := st.(data);
     headers := st.(headers); isAnalyzing := st.(isAnalyzing);
     report := st.(report); error := v;
     regeneratePrompt := st.(regeneratePrompt) |}.

Definition setRegeneratePrompt (v : string) (st : State) : State :=
  {| file := st.(file); fileName := st.(fileName); data := st.(data);
     headers := st.(headers); isAnalyzing := st.(isAnalyzing);
     report := st.(report); error := st.(error);
     regeneratePrompt := v |}.

(** ** The summary and the generation request *)

(** [interface DataSummary]. *)
Record DataSummary : Type := {
  summaryFileName : string;
  rowCount : nat;
  columns : list string;
  sampleData : list DataRow;
  dataTypes : gmap string string
}.

(** [interface ClaudeResponse]. *)
Record ContentBlock : Type := {
  block_type : string;
  block_text : string
}.

Record ClaudeResponse : Type := {
  content : option (list ContentBlock)
}.

(** The argument of [fetch]; [body] is the object handed to
    [JSON.stringify], before serialisation. *)
Record Message : Type := {
  msg_role : string;
  msg_content : string
}.

Record RequestBody : Type := {
  model : string;
  max_tokens : Z;
  messages : list Message;
  system : string
}.

Record Request : Type := {
  url : string;
  method : string;
  request_headers : list (string * string);
  body : RequestBody
}.

Definition nl : string := String LF EmptyString.

Definition systemPrompt : string :=
  "You are an expert data analyst. Analyze the provided dataset and generate a comprehensive report in markdown format." ++ nl ++
  nl ++
  "The report should include:" ++ nl ++
  "1. Executive Summary" ++ nl ++
  "2. Dataset Overview (rows, columns, data types)" ++ nl ++
  "3. Key Findings and Insights" ++ nl ++
  "4. Trend Analysis" ++ nl ++
  "5. Relationships and Correlations" ++ nl ++
  "6. Data Quality Assessment" ++ nl ++
  "7. Visualizations descriptions (describe what charts would be useful)" ++ nl ++
  "8. Conclusions and Recommendations" ++ nl ++
  nl ++
  "Identify the report type needed (performance analysis, trend analysis, comparative analysis, etc.) based on the data structure." ++ nl ++
  nl ++
  "Format the response as clean markdown suitable for PDF conversion.".

Section Analysis.

Variable Date_parse : string -> option Z.

(** [JSON.stringify(dataSummary, null, 2)] and [JSON.stringify(data, null, 2)],
    the engine's. *)
Variable JSON_stringify_summary : DataSummary -> string.
Variable JSON_stringify_rows : list DataRow -> string.

(** How [await fetch(...)] followed by [await response.json()] settles for
    a request. A body that parses to something other than an object makes
    the read of [result.content] throw inside the same [try]: that is a
    [Throws] here. *)
Variable fetch_json : Request -> JSResult ClaudeResponse.

(** The [dataSummary] literal of [analyzeData]. *)
Definition dataSummary (name : string) (rows : list DataRow) (cols : list string)
  : DataSummary :=
  {| summaryFileName := name;
     rowCount := length rows;
     columns := cols;
     sampleData := firstn 5 rows;
     dataTypes := analyzeDataTypes Date_parse rows cols |}.

Definition userPrompt (isRegenerate : bool) (directive : string)
  (summary : DataSummary) (rows : list DataRow) : string :=
  if isRegenerate
  then "Please re-analyze this dataset with the following focus: " ++ directive
       ++ nl ++ nl ++ "Dataset: " ++ JSON_stringify_summary summary
       ++ nl ++ nl ++ "Full data:" ++ nl ++ JSON_stringify_rows rows
  else "Analyze this dataset and generate a professional report:"
       ++ nl ++ nl ++ "Dataset: " ++ JSON_stringify_summary summary
       ++ nl ++ nl ++ "Full data:" ++ nl ++ JSON_stringify_rows rows.

Definition generationRequest (prompt : string) : Request :=
  {| url := "https://api.anthropic.com/v1/messages";
     method := "POST";
     request_headers := [("Content-Type", "application/json")];
     body := {| model := "claude-sonnet-4-20250514";
                max_tokens := 4000;
                messages := [ {| msg_role := "user"; msg_content := prompt |} ];
                system := systemPrompt |} |}.

(** [analyzeData(isRegenerate)]: the state after the handler, and the
    requests it sent to the generation service, in order. *)
Definition analyzeData (isRegenerate : bool) (st : State) : State * list Request :=
  match st.(data) with
  | None => (setError (Some "No data to analyze") st, [])
  | Some rows =>
      if (length rows =? 0)%nat
      then (setError (Some "No data to analyze") st, [])
      else
        let st1 := setError None (setIsAnalyzing true st) in
        let summary := dataSummary st.(fileName) rows st.(headers) in
        let prompt :=
          userPrompt isRegenerate st.(regeneratePrompt) summary rows in
        let request := generationRequest prompt in
        let st2 :=
          match fetch_json request with
          | Returns result =>
              match result.(content) with
              | Some (block :: _) =>
                  setRegeneratePrompt EmptyString
                    (setReport (Some block.(block_text)) st1)
              | _ => setError (Some "Failed to generate report") st1
              end
          | Throws err =>
              setError (Some ("Analysis error: " ++ errorMessage err)) st1
          end in
        (setIsAnalyzing false st2, [request])
  end.

End Analysis.

(** ** Upload *)

(** [s.toLowerCase()] on the ASCII letters. JavaScript also lower-cases
    letters outside ASCII; of those only U+212A and U+0130 produce an ASCII
    letter ([k], [i]), so the comparisons of the result with ["csv"],
    ["xlsx"] and ["xls"] come out the same. *)
Definition lower_ascii (c : ascii) : ascii :=
  let n := nat_of_ascii c in
  if (65 <=? n)%nat && (n <=? 90)%nat then ascii_of_nat (n + 32) else c.

Fixpoint toLowerCase (s : string) : string :=
  match s with
  | EmptyString => EmptyString
  | String c s' => String (lower_ascii c) (toLowerCase s')
  end.

(** [s.split(sep)] for a one-character separator: never the empty array. *)
Fixpoint split (sep : ascii) (s : string) : list string :=
  match s with
  | EmptyString => [EmptyString]
  | String c s' =>
      if Ascii.eqb c sep then EmptyString :: split sep s'
      else match split sep s' with
           | seg :: segs => String c seg :: segs
           | [] => [String c EmptyString]
           end
  end.

(** [uploadedFile.name.split(".").pop()?.toLowerCase()]; [None] is
    [undefined]. *)
Definition fileExtension (name : string) : option string :=
  toLowerCase <$> last (split "."%char name).

(** [Object.keys(row)]: the keys that are array indices in ascending
    numeric order, then the other keys in insertion order. *)
Definition array_index (k : string) : option Z :=
  match list_ascii_of_string k with
  | [] => None
  | [c] => number_of [c]
  | c :: cs =>
      if Ascii.eqb c "0"%char then None
      else n ← number_of (c :: cs);
           if (n <=? 4294967294)%Z then Some n else None
  end.

Fixpoint insert_index (k : Z * string) (l : list (Z * string)) : list (Z * string) :=
  match l with
  | [] => [k]
  | k' :: l' => if (fst k <=? fst k')%Z then k :: l else k' :: insert_index k l'
  end.

Definition index_keys (keys : list string) : list (Z * string) :=
  foldr insert_index []
        (omap (fun k => (fun n => (n, k)) <$> array_index k) keys).

Definition Object_keys (row : DataRow) : list string :=
  let keys := List.map fst row in
  List.map snd (index_keys keys)
  ++ List.filter (fun k => negb (bool_decide (is_Some (array_index k)))) keys.

(** [e.target.files]: the file list of the input, or [null]. *)
Record ChangeEvent : Type := {
  target_files : option (list File)
}.

(** What PapaParse hands to the callbacks given to [Papa.parse]. *)
Record ParseResult : Type := {
  results_data : list DataRow;
  results_meta_fields : option (list string)
}.

Inductive PapaCallback : Type :=
| PapaComplete (results : ParseResult)
| PapaError (message : string).

Section Upload.

(** A sheet of a workbook, as SheetJS holds it. *)
Variable WorkSheet : Type.

Record WorkBook : Type := {
  SheetNames : list string;
  Sheets : gmap string WorkSheet
}.

(** [Papa.parse(text, {header, dynamicTyping, skipEmptyLines, complete,
    error})]: the callbacks the library invokes, in order, and the value it
    throws after them, if any. *)
Variable Papa_parse : string -> list PapaCallback * option JSError.

(** [XLSX.read(arrayBuffer, {type: "array"})]. *)
Variable XLSX_read : list Byte.byte -> JSResult WorkBook.

(** [XLSX.utils.sheet_to_json(worksheet, {defval: null})]; the argument is
    [None] when the workbook has no such sheet. *)
Variable XLSX_utils_sheet_to_json : option WorkSheet -> JSResult (list DataRow).

(** The [complete] and [error] callbacks given to [Papa.parse]. *)
Definition papaCallback (st : State) (cb : PapaCallback) : State :=
  match cb with
  | PapaComplete results =>
      setData (Some results.(results_data))
        (setHeaders (default [] results.(results_meta_fields)) st)
  | PapaError message =>
      setError (Some ("Error parsing CSV: " ++ message)) st
  end.

(** The [catch] clause of [handleFileUpload]. *)
Definition uploadCatch (err : JSError) (st : State) : State :=
  setError (Some ("Error reading file: " ++ errorMessage err)) st.

(** The statements of [handleFileUpload] before the extension is read
    (lines 50 to 54); [console.log(file)] leaves the state alone. *)
Definition uploadPrelude (uploadedFile : File) (st : State) : State :=
  setReport None
    (setError None
       (setFile (Some uploadedFile)
          (setFileName uploadedFile.(file_name) st))).

(** The [try] block of [handleFileUpload]. *)
Definition uploadBody (uploadedFile : File) (st : State) : State :=
  let ext := fileExtension uploadedFile.(file_name) in
  if bool_decide (ext = Some "csv") then
    match uploadedFile.(file_text) with
    | Throws err => uploadCatch err st
    | Returns text =>
        let '(callbacks, thrown) := Papa_parse text in
        let st' := foldl papaCallback st callbacks in
        match thrown with
        | Some err => uploadCatch err st'
        | None => st'
        end
    end
  else if bool_decide (default EmptyString ext ∈ ["xlsx"; "xls"]) then
    match uploadedFile.(file_arrayBuffer) with
    | Throws err => uploadCatch err st
    | Returns arrayBuffer =>
        match XLSX_read arrayBuffer with
        | Throws err => uploadCatch err st
        | Returns workbook =>
            let sheetName := default "undefined" (head workbook.(SheetNames)) in
            let worksheet := workbook.(Sheets) !! sheetName in
            match XLSX_utils_sheet_to_json worksheet with
            | Throws err => uploadCatch err st
            | Returns jsonData =>
                match jsonData with
                | row :: _ =>
                    setData (Some jsonData) (setHeaders (Object_keys row) st)
                | [] => st
                end
            end
        end
    end
  else setError (Some "Please upload a CSV, XLS, or XLSX file") st.

(** [handleFileUpload(e)]. *)
Definition handleFileUpload (e : ChangeEvent) (st : State) : State :=
  match e.(target_files) ≫= head with
  | None => st
  | Some uploadedFile => uploadBody uploadedFile (uploadPrelude uploadedFile st)
  end.

End Upload.

(** ** The export renderer

    [marked] chains seven [String.prototype.replace] calls, each with a
    global regular expression. A regular expression is modelled by what it
    does at one position of the subject: given the text before the position
    (latest character first) and the text from the position on, the
    replacement of the match that starts there and the number of characters
    it covers, or [None] when no match starts there. *)

Definition Matcher : Type := list ascii -> string -> option (string * nat).

(** Whether a line terminator of the regular-expression grammar starts
    the text: LF, CR, U+2028 or U+2029 (in UTF-8 the bytes E2 80 A8 and
    E2 80 A9). *)
Definition starts_with_terminator (s : string) : bool :=
  match s with
  | String c s' =>
      if Ascii.eqb c LF || Ascii.eqb c CR then true
      else if Ascii.eqb c (ascii_of_nat 226) then
        match s' with
        | String c2 (String c3 _) =>
            Ascii.eqb c2 (ascii_of_nat 128)
            && (Ascii.eqb c3 (ascii_of_nat 168) || Ascii.eqb c3 (ascii_of_nat 169))
        | _ => false
        end
      else false
  | EmptyString => false
  end.

(** [^] under the [m] flag: the position is the start of the input or
    follows a line terminator. *)
Definition at_line_start (before : list ascii) : bool :=
  match before with
  | [] => true
  | c :: before' =>
      if Ascii.eqb c LF || Ascii.eqb c CR then true
      else match before' with
           | c2 :: c1 :: _ =>
               Ascii.eqb c1 (ascii_of_nat 226)
               && Ascii.eqb c2 (ascii_of_nat 128)
               && (Ascii.eqb c (ascii_of_nat 168) || Ascii.eqb c (ascii_of_nat 169))
           | _ => false
           end
  end.

(** The greedy [.*] followed by [$] under the [m] flag: the characters
    up to the next line terminator or the end of the input. *)
Fixpoint line_rest (s : string) : string :=
  match s with
  | EmptyString => EmptyString
  | String c s' =>
      if starts_with_terminator s then EmptyString else String c (line_rest s')
  end.

(** The text after the literal [p], when the text starts with [p]. *)
Fixpoint strip_prefix (p s : string) : option string :=
  match p with
  | EmptyString => Some s
  | String a p' =>
      match s with
      | String b s' => if Ascii.eqb a b then strip_prefix p' s' else None
      | EmptyString => None
      end
  end.

(** The lazy [(.*?)] followed by the literal [delim]: the shortest run of
    characters other than line terminators after which [delim] stands. *)
Fixpoint find_close (delim s : string) : option string :=
  match strip_prefix delim s with
  | Some _ => Some EmptyString
  | None =>
      match s with
      | EmptyString => None
      | String c s' =>
          if starts_with_terminator s then None
          else String c <$> find_close delim s'
      end
  end.

(** [/^MARKER(.*$)/gim] with replacement [<tag>$1</tag>]; no letter
    stands in the pattern, so the [i] flag changes nothing. *)
Definition heading (marker tag : string) : Matcher :=
  fun before s =>
    if at_line_start before then
      match strip_prefix marker s with
      | Some rest =>
          let captured := line_rest rest in
          Some ("<" ++ tag ++ ">" ++ captured ++ "</" ++ tag ++ ">",
                String.length marker + String.length captured)%nat
      | None => None
      end
    else None.

(** [/DELIM(.*?)DELIM/g] with replacement [<tag>$1</tag>]. *)
Definition emphasis (delim tag : string) : Matcher :=
  fun _ s =>
    match strip_prefix delim s with
    | Some rest =>
        match find_close delim rest with
        | Some captured =>
            Some ("<" ++ tag ++ ">" ++ captured ++ "</" ++ tag ++ ">",
                  String.length delim + String.length captured
                  + String.length delim)%nat
        | None => None
        end
    | None => None
    end.

(** [/LITERAL/g] with a replacement free of [$]. *)
Definition literal (lit replacement : string) : Matcher :=
  fun _ s =>
    match strip_prefix lit s with
    | Some _ => Some (replacement, String.length lit)
    | None => None
    end.

(** [s.replace(re, ...)] for a global [re] whose matches are never empty:
    a match is looked for at each position in turn, from the end of the
    previous match on; [skip] counts the characters of the current match
    still to pass over. *)
Fixpoint replace_from (re : Matcher) (before : list ascii) (skip : nat)
  (s : string) : string :=
  match s with
  | EmptyString => EmptyString
  | String c s' =>
      match skip with
      | S k => replace_from re (c :: before) k s'
      | O =>
          match re before s with
          | Some (replacement, len) =>
              replacement ++ replace_from re (c :: before) (pred len) s'
          | None => String c (replace_from re (c :: before) 0 s')
          end
      end
  end.

Definition replace (re : Matcher) (s : string) : string :=
  replace_from re [] 0 s.

Definition re_h3 : Matcher := heading "### " "h3".
Definition re_h2 : Matcher := heading "## " "h2".
Definition re_h1 : Matcher := heading "# " "h1".
Definition re_strong : Matcher := emphasis "**" "strong".
Definition re_em : Matcher := emphasis "*" "em".
Definition re_paragraph : Matcher := literal (nl ++ nl) "</p><p>".
Definition re_break : Matcher := literal nl "<br>".

(** [marked(text)]. *)
Definition marked (text : string) : string :=
  replace re_break
    (replace re_paragraph
       (replace re_em
          (replace re_strong
             (replace re_h1
                (replace re_h2
                   (replace re_h3 text)))))).

(** ** Export *)

(** The three literal parts of the template written into the print
    window: before the file name, between the file name and the rendered
    report, and after the rendered report. *)
Definition documentHead : string :=
  nl
  ++ "      <html>" ++ nl
  ++ "        <head>" ++ nl
  ++ "          <title>Data Analysis Report - ".

Definition documentStyle : string :=
  "</title>" ++ nl
  ++ "          <style>" ++ nl
  ++ "            body { " ++ nl
  ++ "              font-family: Arial, sans-serif; " ++ nl
  ++ "              line-height: 1.6; " ++ nl
  ++ "              padding: 40px;" ++ nl
  ++ "              max-width: 800px;" ++ nl
  ++ "              margin: 0 auto;" ++ nl
  ++ "            }" ++ nl
  ++ "            h1 { color: #2563eb; border-bottom: 2px solid #2563eb; padding-bottom: 10px; }" ++ nl
  ++ "            h2 { color: #1e40af; margin-top: 30px; }" ++ nl
  ++ "            h3 { color: #3b82f6; }" ++ nl
  ++ "            table { border-collapse: collapse; width: 100%; margin: 20px 0; }" ++ nl
  ++ "            th, td { border: 1px solid #ddd; padding: 8px; text-align: left; }" ++ nl
  ++ "            th { background-color: #2563eb; color: white; }" ++ nl
  ++ "            code { background: #f1f5f9; padding: 2px 6px; border-radius: 3px; }" ++ nl
  ++ "            pre { background: #f1f5f9; padding: 15px; border-radius: 5px; overflow-x: auto; }" ++ nl
  ++ "          </style>" ++ nl
  ++ "        </head>" ++ nl
  ++ "        <body>" ++ nl
  ++ "          ".

Definition documentTail : string :=
  nl
  ++ "        </body>" ++ nl
  ++ "      </html>" ++ nl
  ++ "    ".

(** What [downloadPDF] does to the print window, in order. *)
Inductive PrintEffect : Type :=
| DocumentWrite (html : string)
| DocumentClose
| PrintAfter (milliseconds : Z).

(** The template literal handed to [printWindow.document.write]; a
    [null] report, like the empty one, is rendered as the empty string. *)
Definition exportDocument (name : string) (reportText : option string) : string :=
  documentHead ++ name ++ documentStyle
  ++ marked (default EmptyString reportText) ++ documentTail.

(** [downloadPDF()]; [opened] tells whether [window.open] gave a window. *)
Definition downloadPDF (opened : bool) (st : State) : State * list PrintEffect :=
  if opened
  then (st, [DocumentWrite (exportDocument st.(fileName) st.(report));
             DocumentClose; PrintAfter 250])
  else (setError
          (Some "Unable to open print window. Please check your browser settings.")
          st, []).

(** ** The rendered view *)

(** White space and line terminators of ECMA-262, as [trim] strips them,
    by their UTF-8 bytes: TAB, LF, VT, FF, CR, SP; U+00A0; U+1680;
    U+2000 to U+200A, U+2028, U+2029, U+202F; U+205F; U+3000; U+FEFF. *)
Definition is_space1 (a : ascii) : bool :=
  let n := nat_of_ascii a in
  ((9 <=? n) && (n <=? 13) || (n =? 32))%nat.

Definition is_space2 (a b : ascii) : bool :=
  ((nat_of_ascii a =? 194) && (nat_of_ascii b =? 160))%nat.

Definition is_space3 (a b c : ascii) : bool :=
  let x := nat_of_ascii a in
  let y := nat_of_ascii b in
  let z := nat_of_ascii c in
  ((x =? 225) && (y =? 154) && (z =? 128)
   || (x =? 226) && (y =? 128)
      && ((128 <=? z) && (z <=? 138) || (z =? 168) || (z =? 169) || (z =? 175))
   || (x =? 226) && (y =? 129) && (z =? 159)
   || (x =? 227) && (y =? 128) && (z =? 128)
   || (x =? 239) && (y =? 187) && (z =? 191))%nat.

(** [s.trimStart()]. *)
Fixpoint trimStart (s : string) : string :=
  match s with
  | EmptyString => EmptyString
  | String a s1 =>
      if is_space1 a then trimStart s1
      else match s1 with
           | String b s2 =>
               if is_space2 a b then trimStart s2
               else match s2 with
                    | String c s3 => if is_space3 a b c then trimStart s3 else s
                    | EmptyString => s
                    end
           | EmptyString => s
           end
  end.

(** Whether the text is made of white space only. *)
Fixpoint all_whitespace (s : string) : bool :=
  match s with
  | EmptyString => true
  | String a s1 =>
      if is_space1 a then all_whitespace s1
      else match s1 with
           | String b s2 =>
               if is_space2 a b then all_whitespace s2
               else match s2 with
                    | String c s3 => is_space3 a b c && all_whitespace s3
                    | EmptyString => false
                    end
           | EmptyString => false
           end
  end.

(** [s.trimEnd()]: the text up to its last character that is no white
    space. *)
Fixpoint trimEnd (s : string) : string :=
  match s with
  | EmptyString => EmptyString
  | String a s' => if all_whitespace s then EmptyString else String a (trimEnd s')
  end.

(** [s.trim()]. *)
Definition trim (s : string) : string := trimStart (trimEnd s).

(** Truthiness of a string cell: neither [null] nor empty. *)
Definition truthy (s : option string) : bool :=
  match s with
  | Some (String _ _) => true
  | _ => false
  end.

(** [fileName || "Click to upload dataset"]. *)
Definition uploadLabel (st : State) : string :=
  match st.(fileName) with
  | EmptyString => "Click to upload dataset"
  | name => name
  end.

(** [data && data.length > 0]: the data preview, which holds the
    [Generate Report] button. *)
Definition showsDataPreview (st : State) : bool :=
  match st.(data) with
  | Some rows => (0 <? length rows)%nat
  | None => false
  end.

(** [disabled={isAnalyzing}] of the [Generate Report] button. *)
Definition generateDisabled (st : State) : bool := st.(isAnalyzing).

(** [error && ...]: the error box. *)
Definition showsError (st : State) : bool := truthy st.(error).

(** [report && ...]: the report section, which holds the export button,
    the directive text area and the [Regenerate Report] button. *)
Definition showsReport (st : State) : bool := truthy st.(report).

(** [disabled={isAnalyzing || !regeneratePrompt.trim()}]. *)
Definition regenerateDisabled (st : State) : bool :=
  st.(isAnalyzing)
  || match trim st.(regeneratePrompt) with
     | EmptyString => true
     | String _ _ => false
     end.

(** [!data]: the instructions. *)
Definition showsInstructions (st : State) : bool :=
  match st.(data) with
  | None => true
  | Some _ => false
  end.

(** ** The component as a state machine *)

(** The state of the first render: the initial values of the [useState]
    cells. *)
Definition initialState : State :=
  {| file := None; fileName := EmptyString; data := None; headers := [];
     isAnalyzing := false; report := None; error := None;
     regeneratePrompt := EmptyString |}.

(** What the user can do to the rendered component, with the answers of
    the browser and of the generation service to it. *)
Inductive UIEvent : Type :=
| FileChosen (e : ChangeEvent)
| GenerateClicked (answer : JSResult ClaudeResponse)
| DirectiveTyped (value : string)
| RegenerateClicked (answer : JSResult ClaudeResponse)
| ExportClicked (opened : bool).

Section Component.

Variable Date_parse : string -> option Z.
Variable JSON_stringify_summary : DataSummary -> string.
Variable JSON_stringify_rows : list DataRow -> string.
Variable WorkSheet : Type.
Variable Papa_parse : string -> list PapaCallback * option JSError.
Variable XLSX_read : list Byte.byte -> JSResult (WorkBook WorkSheet).
Variable XLSX_utils_sheet_to_json : option WorkSheet -> JSResult (list DataRow).

(** The handler an event runs, when the control it comes from is rendered
    and enabled: the state after the handler, the requests sent and the
    effects on the print window. [None] when the control is not rendered
    or is disabled. Each handler runs to its end before the next event. *)
Definition dispatch (ev : UIEvent) (st : State)
  : option (State * list Request * list PrintEffect) :=
  match ev with
  | FileChosen e =>
      Some (handleFileUpload WorkSheet Papa_parse XLSX_read
              XLSX_utils_sheet_to_json e st, [], [])
  | GenerateClicked answer =>
      if showsDataPreview st && negb (generateDisabled st)
      then let '(st', requests) :=
             analyzeData Date_parse JSON_stringify_summary JSON_stringify_rows
               (fun _ => answer) false st in
           Some (st', requests, [])
      else None
  | DirectiveTyped value =>
      if showsReport st then Some (setRegeneratePrompt value st, [], []) else None
  | RegenerateClicked answer =>
      if showsReport st && negb (regenerateDisabled st)
      then let '(st', requests) :=
             analyzeData Date_parse JSON_stringify_summary JSON_stringify_rows
               (fun _ => answer) true st in
           Some (st', requests, [])
      else None
  | ExportClicked opened =>
      if showsReport st
      then let '(st', effects) := downloadPDF opened st in
           Some (st', [], effects)
      else None
  end.

(** The states the component reaches from its first render. *)
Inductive reachable : State -> Prop :=
| reachable_initial : reachable initialState
| reachable_step (ev : UIEvent) (st st' : State)
    (requests : list Request) (effects : list PrintEffect) :
    reachable st ->
    dispatch ev st = Some (st', requests, effects) ->
    reachable st'.

End Component.

(** * Specification-side definitions *)






(** The request [analyzeData] sends from a state holding [rows]. *)
Definition analysisRequest
  (Date_parse : string -> option Z)
  (JSON_stringify_summary : DataSummary -> string)
  (JSON_stringify_rows : list DataRow -> string)
  (isRegenerate : bool) (st : State) (rows : list DataRow) : Request :=
  generationRequest
    (userPrompt JSON_stringify_summary JSON_stringify_rows isRegenerate
       st.(regeneratePrompt)
       (dataSummary Date_parse st.(fileName) rows st.(headers)) rows).

(** Whether the character [c] occurs in [s]. *)
Fixpoint contains (c : ascii) (s : string) : bool :=
  match s with
  | EmptyString => false
  | String a s' => Ascii.eqb a c || contains c s'
  end.

(** Plain text: no heading marker character, no emphasis delimiter and no
    line feed. *)
Definition plain_text (s : string) : bool :=
  negb (contains "#" s) && negb (contains "*" s) && negb (contains LF s).


(** What holds of the cells between two events: no analysis is running,
    a report is held only together with a non-empty dataset, and the file
    name is that of the file last chosen (empty, with no dataset, before any
    file was chosen). *)
Definition coherent (st : State) : Prop :=
  st.(isAnalyzing) = false
  /\ (st.(report) <> None ->
      exists rows : list DataRow, st.(data) = Some rows /\ rows <> [])
  /\ match st.(file) with
     | Some f => st.(fileName) = f.(file_name)
     | None => st.(fileName) = EmptyString /\ st.(data) = None
     end.

(** Whether a list of integers is in ascending order. *)
Fixpoint ascending (l : list Z) : bool :=
  match l with
  | x :: l' =>
      match l' with
      | y :: _ => (x <=? y)%Z && ascending l'
      | [] => true
      end
  | [] => true
  end.

(** * Example inputs *)

(** A dataset of three rows over the columns [when], [amount] and
    [note]. *)
Definition example_rows : list DataRow :=
  [ [("when", JNull); ("amount", JNumber 5); ("note", JNull)];
    [("when", JString "2023-01-01"); ("amount", JNumber 6)];
    [("when", JString "bad"); ("amount", JNull); ("note", JNull)] ].

(** A state after a report was generated from [sales.csv], with a
    directive typed in and an error left over. *)
Definition example_state (rows : option (list DataRow)) : State :=
  {| file := None; fileName := "sales.csv"; data := rows;
     headers := ["when"; "amount"; "note"]; isAnalyzing := false;
     report := Some "# Earlier report";
     error := Some "Failed to generate report";
     regeneratePrompt := "focus on amounts" |}.

(** Collaborators that instantiate the parameters of the analysis: a
    serialiser that prints nothing, a generation service that cannot be
    reached, and one that answers with a fixed report. *)
Definition silent {A : Type} : A -> string := fun _ => EmptyString.

Definition unreachable_service : Request -> JSResult ClaudeResponse :=
  fun _ => Throws (ErrorObject "Failed to fetch").

Definition answering_service (text : string) : Request -> JSResult ClaudeResponse :=
  fun _ => Returns {| content := Some [ {| block_type := "text";
                                           block_text := text |} ] |}.

(** Collaborators that instantiate the parameters of the upload, and
    files to upload: a CSV parser that completes with no row and no field, and a
    spreadsheet reader that finds a workbook without sheets, which converts
    to no row. *)
Definition papa_no_rows : string -> list PapaCallback * option JSError :=
  fun _ => ([PapaComplete {| results_data := []; results_meta_fields := None |}],
            None).

Definition xlsx_no_sheet : list Byte.byte -> JSResult (WorkBook unit) :=
  fun _ => Returns {| SheetNames := []; Sheets := ∅ |}.

Definition sheet_no_rows : option unit -> JSResult (list DataRow) :=
  fun _ => Returns [].

Definition example_file (name : string) : File :=
  {| file_name := name; file_text := Returns "a,b"; file_arrayBuffer := Returns [] |}.

Definition example_event (name : string) : ChangeEvent :=
  {| target_files := Some [example_file name] |}.

(** A spreadsheet reader that rejects the file, and a sheet that converts
    to the rows of [example_rows]. *)
Definition xlsx_corrupt : list Byte.byte -> JSResult (WorkBook unit) :=
  fun _ => Throws (ErrorObject "Unsupported file format").

Definition sheet_example_rows : option unit -> JSResult (list DataRow) :=
  fun _ => Returns example_rows.

(** The text of the round-trip scenario. *)
Definition scenario : string :=
  "# Title" ++ nl ++ nl ++ "Some **bold** and *italic* text.".

(** * Properties *)

(** ** The embedding on small inputs *)

Example Date_parse_date_only_samples :
  Date_parse_date_only "2023-01-01" = Some 1672531200000%Z
  /\ Date_parse_date_only "1970-01-02" = Some 86400000%Z
  /\ Date_parse_date_only "2024-02-29" = Some 1709164800000%Z
  /\ Date_parse_date_only "2023-02-29" = None
  /\ Date_parse_date_only "bad" = None
  /\ Date_parse_date_only "undefined" = None
  /\ Date_parse_date_only EmptyString = None.
Proof. repeat split. Qed.

Example fileExtension_samples :
  fileExtension "report.final.CSV" = Some "csv"
  /\ fileExtension "sheet.Xlsx" = Some "xlsx"
  /\ fileExtension "README" = Some "readme"
  /\ fileExtension "archive." = Some EmptyString
  /\ fileExtension EmptyString = Some EmptyString.
Proof. repeat split. Qed.

Example Object_keys_sample :
  Object_keys [("b", JNull); ("10", JNull); ("a", JNull); ("2", JNull);
               ("01", JNull); ("0", JNull)]
  = ["0"; "2"; "10"; "b"; "a"; "01"].
Proof. reflexivity. Qed.

(** Headings of the three levels, a marker that does not start its line,
    and a run of three line feeds. *)
Example marked_headings :
  marked ("### x" ++ nl ++ "## y" ++ nl ++ " # z" ++ nl ++ nl ++ nl ++ "#no")
  = "<h3>x</h3><br><h2>y</h2><br> # z</p><p><br>#no".
Proof. vm_compute. reflexivity. Qed.

(** The single-emphasis pass runs over what the double-emphasis pass left:
    the spans of [***a***] come out crossed. A delimiter with no partner on
    its line stays. *)
Example marked_emphasis_overlap :
  marked "***a***" = "<strong><em>a</strong></em>"
  /\ marked ("* a" ++ nl ++ "* b **c" ++ nl ++ "d** ****")
     = "* a<br><em> b </em>*c<br>d<strong> </strong><em></em>".
Proof. split; vm_compute; reflexivity. Qed.

(** ** Type inference *)

Section TypeInferenceFacts.

Variable Date_parse : string -> option Z.







End TypeInferenceFacts.







(** ** The summary and the analysis handler *)

Section AnalysisFacts.

Variable Date_parse : string -> option Z.
Variable JSON_stringify_summary : DataSummary -> string.
Variable JSON_stringify_rows : list DataRow -> string.
Variable fetch_json : Request -> JSResult ClaudeResponse.

Local Abbreviation analyze :=
  (analyzeData Date_parse JSON_stringify_summary JSON_stringify_rows fetch_json).
Local Abbreviation requestOf :=
  (analysisRequest Date_parse JSON_stringify_summary JSON_stringify_rows).

Lemma analyzeData_no_data (isRegenerate : bool) (st : State) :
  st.(data) = None \/ st.(data) = Some [] ->
  analyze isRegenerate st = (setError (Some "No data to analyze") st, []).
Proof.
  unfold analyzeData. intros [-> | ->]; reflexivity.
Qed.

Lemma analyzeData_with_data (isRegenerate : bool) (st : State)
  (rows : list DataRow) :
  st.(data) = Some rows -> rows <> [] ->
  analyze isRegenerate st
  = (setIsAnalyzing false
       (match fetch_json (requestOf isRegenerate st rows) with
        | Returns result =>
            match result.(content) with
            | Some (block :: _) =>
                setRegeneratePrompt EmptyString
                  (setReport (Some block.(block_text))
                     (setError None (setIsAnalyzing true st)))
            | _ => setError (Some "Failed to generate report")
                     (setError None (setIsAnalyzing true st))
            end
        | Throws err =>
            setError (Some ("Analysis error: " ++ errorMessage err))
              (setError None (setIsAnalyzing true st))
        end),
     [requestOf isRegenerate st rows]).
Proof.
  intros Hdata Hne. unfold analyzeData. rewrite Hdata.
  destruct rows as [|row rows']; [congruence|]. reflexivity.
Qed.

(** The handler writes none of the dataset, the column list and the file
    name. *)
Lemma analyzeData_frame (isRegenerate : bool) (st : State) :
  (analyze isRegenerate st).1.(data) = st.(data)
  /\ (analyze isRegenerate st).1.(headers) = st.(headers)
  /\ (analyze isRegenerate st).1.(fileName) = st.(fileName).
Proof.
  unfold analyzeData.
  destruct (data st) as [rows|] eqn:Hdata; [|by rewrite ?Hdata].
  destruct (length rows =? 0)%nat; [by rewrite ?Hdata|].
  cbn [fst].
  destruct (fetch_json _) as [result|err]; [|by rewrite ?Hdata].
  destruct (content result) as [[|block blocks]|]; by rewrite ?Hdata.
Qed.

End AnalysisFacts.

Lemma firstn_min_length {A : Type} (n : nat) (l : list A) :
  firstn (Nat.min n (length l)) l = firstn n l.
Proof.
  destruct (Nat.le_ge_cases n (length l)) as [H|H].
  - by rewrite Nat.min_l.
  - rewrite Nat.min_r by done. by rewrite firstn_all, firstn_all2.
Qed.

(** C3. The sample of the summary is the first [min 5 rowCount] rows of
    the dataset, in order: 3 rows of a 3-row dataset, 5 of a 100-row one;
    its row count is the size of the whole dataset; the summary is the one
    [analyzeData] puts in its request, and the handler leaves the dataset,
    the column list and the file name as they were. *)
Theorem dataSummary_sample
  (Date_parse : string -> option Z)
  (JSON_stringify_summary : DataSummary -> string)
  (JSON_stringify_rows : list DataRow -> string)
  (fetch_json : Request -> JSResult ClaudeResponse)
  (isRegenerate : bool) (st : State) (name : string) (rows : list DataRow)
  (cols : list string) :
  sampleData (dataSummary Date_parse name rows cols)
  = firstn (Nat.min 5 (length rows)) rows
  /\ length (sampleData (dataSummary Date_parse name rows cols))
     = Nat.min 5 (length rows)
  /\ (length rows = 3 ->
      sampleData (dataSummary Date_parse name rows cols) = rows
      /\ length (sampleData (dataSummary Date_parse name rows cols)) = 3)
  /\ (length rows = 100 ->
      length (sampleData (dataSummary Date_parse name rows cols)) = 5)
  /\ rowCount (dataSummary Date_parse name rows cols) = length rows
  /\ (st.(data) = Some rows -> rows <> [] ->
      (analyzeData Date_parse JSON_stringify_summary JSON_stringify_rows
         fetch_json isRegenerate st).2
      = [generationRequest
           (userPrompt JSON_stringify_summary JSON_stringify_rows isRegenerate
              st.(regeneratePrompt)
              (dataSummary Date_parse st.(fileName) rows st.(headers)) rows)])
  /\ (analyzeData Date_parse JSON_stringify_summary JSON_stringify_rows
        fetch_json isRegenerate st).1.(data) = st.(data)
  /\ (analyzeData Date_parse JSON_stringify_summary JSON_stringify_rows
        fetch_json isRegenerate st).1.(headers) = st.(headers)
  /\ (analyzeData Date_parse JSON_stringify_summary JSON_stringify_rows
        fetch_json isRegenerate st).1.(fileName) = st.(fileName).
Proof.
  destruct (analyzeData_frame Date_parse JSON_stringify_summary
              JSON_stringify_rows fetch_json isRegenerate st) as (Fd & Fh & Fn).
  cbn [dataSummary sampleData rowCount].
  split; [by rewrite firstn_min_length|].
  split; [apply length_firstn|].
  split.
  { intros Hlen. split; [apply firstn_all2; lia|rewrite length_firstn; lia]. }
  split; [intros Hlen; rewrite length_firstn; lia|].
  split; [reflexivity|].
  split; [|done].
  intros Hdata Hne. by rewrite (analyzeData_with_data _ _ _ _ _ _ rows).
Qed.

Lemma dataSummary_sample_witness :
  (sampleData (dataSummary Date_parse_date_only "sales.csv" example_rows
                 ["when"; "amount"; "note"]) = example_rows
   /\ length (sampleData (dataSummary Date_parse_date_only "sales.csv" example_rows
                            ["when"; "amount"; "note"])) = 3)
  /\ length (sampleData (dataSummary Date_parse_date_only "sales.csv"
                           (List.repeat [("amount", JNumber 1)] 100)
                           ["when"; "amount"; "note"])) = 5
  /\ (analyzeData Date_parse_date_only silent silent unreachable_service false
        (example_state (Some example_rows))).2
     = [generationRequest
          (userPrompt silent silent false "focus on amounts"
             (dataSummary Date_parse_date_only "sales.csv" example_rows
                ["when"; "amount"; "note"]) example_rows)].
Proof.
  split; [|split].
  - pose proof (dataSummary_sample Date_parse_date_only silent silent
                  unreachable_service false (example_state (Some example_rows))
                  "sales.csv" example_rows ["when"; "amount"; "note"])
      as (_ & _ & H & _).
    apply H. reflexivity.
  - pose proof (dataSummary_sample Date_parse_date_only silent silent
                  unreachable_service false (example_state None)
                  "sales.csv" (List.repeat [("amount", JNumber 1)] 100)
                  ["when"; "amount"; "note"])
      as (_ & _ & _ & H & _).
    apply H. reflexivity.
  - pose proof (dataSummary_sample Date_parse_date_only silent silent
                  unreachable_service false (example_state (Some example_rows))
                  "sales.csv" example_rows ["when"; "amount"; "note"])
      as (_ & _ & _ & _ & _ & H & _).
    apply H; [reflexivity|discriminate].
Defined.

(** C7. An analysis requested while the dataset is absent or empty ends
    with the [NoData] message as the current error, sends no request to the
    generation service and leaves the report, like every other cell, as it
    was. *)
Theorem analyzeData_no_data_no_request
  (Date_parse : string -> option Z)
  (JSON_stringify_summary : DataSummary -> string)
  (JSON_stringify_rows : list DataRow -> string)
  (fetch_json : Request -> JSResult ClaudeResponse)
  (isRegenerate : bool) (st : State) :
  st.(data) = None \/ st.(data) = Some [] ->
  analyzeData Date_parse JSON_stringify_summary JSON_stringify_rows
    fetch_json isRegenerate st
  = (setError (Some "No data to analyze") st, [])
  /\ (analyzeData Date_parse JSON_stringify_summary JSON_stringify_rows
        fetch_json isRegenerate st).1.(error) = Some "No data to analyze"
  /\ (analyzeData Date_parse JSON_stringify_summary JSON_stringify_rows
        fetch_json isRegenerate st).2 = []
  /\ (analyzeData Date_parse JSON_stringify_summary JSON_stringify_rows
        fetch_json isRegenerate st).1.(report) = st.(report).
Proof.
  intros Hdata.
  rewrite (analyzeData_no_data _ _ _ _ _ _ Hdata). repeat split.
Qed.

Lemma analyzeData_no_data_no_request_witness :
  (analyzeData Date_parse_date_only silent silent (answering_service "# Report")
     true (example_state None)).2 = []
  /\ (analyzeData Date_parse_date_only silent silent (answering_service "# Report")
        false (example_state (Some []))).1.(report) = Some "# Earlier report".
Proof.
  split.
  - apply (analyzeData_no_data_no_request Date_parse_date_only silent silent
             (answering_service "# Report") true (example_state None)).
    left. reflexivity.
  - apply (analyzeData_no_data_no_request Date_parse_date_only silent silent
             (answering_service "# Report") false (example_state (Some []))).
    right. reflexivity.
Defined.

(** C8. A regeneration request over a loaded dataset clears the
    refinement directive exactly when the exchange yields a report: if the
    response carries a first content segment, its text becomes the report
    and the directive becomes empty; if the exchange throws, or the response
    carries no content segment, the directive stays as the caller left
    it. *)
Theorem analyzeData_regenerate_directive
  (Date_parse : string -> option Z)
  (JSON_stringify_summary : DataSummary -> string)
  (JSON_stringify_rows : list DataRow -> string)
  (fetch_json : Request -> JSResult ClaudeResponse)
  (st : State) (rows : list DataRow) :
  st.(data) = Some rows ->
  rows <> [] ->
  (forall result block blocks,
      fetch_json (analysisRequest Date_parse JSON_stringify_summary
                    JSON_stringify_rows true st rows) = Returns result ->
      result.(content) = Some (block :: blocks) ->
      (analyzeData Date_parse JSON_stringify_summary JSON_stringify_rows
         fetch_json true st).1.(report) = Some block.(block_text)
      /\ (analyzeData Date_parse JSON_stringify_summary JSON_stringify_rows
           fetch_json true st).1.(regeneratePrompt) = EmptyString)
  /\ (forall err,
      fetch_json (analysisRequest Date_parse JSON_stringify_summary
                    JSON_stringify_rows true st rows) = Throws err ->
      (analyzeData Date_parse JSON_stringify_summary JSON_stringify_rows
         fetch_json true st).1.(regeneratePrompt) = st.(regeneratePrompt)
      /\ (analyzeData Date_parse JSON_stringify_summary JSON_stringify_rows
           fetch_json true st).1.(report) = st.(report)
      /\ (analyzeData Date_parse JSON_stringify_summary JSON_stringify_rows
           fetch_json true st).1.(error)
         = Some ("Analysis error: " ++ errorMessage err))
  /\ (forall result,
      fetch_json (analysisRequest Date_parse JSON_stringify_summary
                    JSON_stringify_rows true st rows) = Returns result ->
      result.(content) = None \/ result.(content) = Some [] ->
      (analyzeData Date_parse JSON_stringify_summary JSON_stringify_rows
         fetch_json true st).1.(regeneratePrompt) = st.(regeneratePrompt)
      /\ (analyzeData Date_parse JSON_stringify_summary JSON_stringify_rows
           fetch_json true st).1.(report) = st.(report)
      /\ (analyzeData Date_parse JSON_stringify_summary JSON_stringify_rows
           fetch_json true st).1.(error) = Some "Failed to generate report").
Proof.
  intros Hdata Hne.
  rewrite (analyzeData_with_data _ _ _ _ _ _ rows Hdata Hne).
  split; [|split].
  - intros result block blocks Hfetch Hcontent.
    rewrite Hfetch, Hcontent. split; reflexivity.
  - intros err Hfetch. rewrite Hfetch. repeat split.
  - intros result Hfetch Hcontent. rewrite Hfetch.
    destruct Hcontent as [-> | ->]; repeat split.
Qed.

Lemma analyzeData_regenerate_directive_witness :
  ((analyzeData Date_parse_date_only silent silent (answering_service "# Report")
      true (example_state (Some example_rows))).1.(report) = Some "# Report"
   /\ (analyzeData Date_parse_date_only silent silent (answering_service "# Report")
         true (example_state (Some example_rows))).1.(regeneratePrompt)
      = EmptyString)
  /\ (analyzeData Date_parse_date_only silent silent unreachable_service
        true (example_state (Some example_rows))).1.(regeneratePrompt)
     = "focus on amounts".
Proof.
  split.
  - pose proof (analyzeData_regenerate_directive Date_parse_date_only silent
                  silent (answering_service "# Report")
                  (example_state (Some example_rows)) example_rows
                  eq_refl ltac:(discriminate)) as (H & _).
    exact (H _ _ _ eq_refl eq_refl).
  - pose proof (analyzeData_regenerate_directive Date_parse_date_only silent
                  silent unreachable_service
                  (example_state (Some example_rows)) example_rows
                  eq_refl ltac:(discriminate)) as (_ & H & _).
    exact (proj1 (H _ eq_refl)).
Defined.

(** ** The upload handler *)

Section UploadFacts.

Variable WorkSheet : Type.
Variable Papa_parse : string -> list PapaCallback * option JSError.
Variable XLSX_read : list Byte.byte -> JSResult (WorkBook WorkSheet).
Variable XLSX_utils_sheet_to_json : option WorkSheet -> JSResult (list DataRow).

Local Abbreviation upload :=
  (handleFileUpload WorkSheet Papa_parse XLSX_read XLSX_utils_sheet_to_json).
Local Abbreviation body_of :=
  (uploadBody WorkSheet Papa_parse XLSX_read XLSX_utils_sheet_to_json).

Lemma handleFileUpload_with_file (e : ChangeEvent) (uploadedFile : File)
  (st : State) :
  e.(target_files) ≫= head = Some uploadedFile ->
  upload e st = body_of uploadedFile (uploadPrelude uploadedFile st).
Proof.
  intros He. unfold handleFileUpload. by rewrite He.
Qed.

(** No callback given to [Papa.parse] writes the report, the file name or
    the file. *)
Lemma papaCallbacks_frame (callbacks : list PapaCallback) (st : State) :
  (foldl papaCallback st callbacks).(report) = st.(report)
  /\ (foldl papaCallback st callbacks).(fileName) = st.(fileName)
  /\ (foldl papaCallback st callbacks).(file) = st.(file).
Proof.
  revert st. induction callbacks as [|cb cbs IH]; intros st; [done|].
  cbn [foldl]. destruct (IH (papaCallback st cb)) as (Hr & Hn & Hf).
  rewrite Hr, Hn, Hf. by destruct cb.
Qed.

(** The [try] block and its [catch] clause write neither the report, nor
    the file name, nor the file. *)
Lemma uploadBody_frame (uploadedFile : File) (st : State) :
  (body_of uploadedFile st).(report) = st.(report)
  /\ (body_of uploadedFile st).(fileName) = st.(fileName)
  /\ (body_of uploadedFile st).(file) = st.(file).
Proof.
  unfold uploadBody.
  case_bool_decide as Hcsv.
  - destruct (file_text uploadedFile) as [text|err]; [|done].
    destruct (Papa_parse text) as [callbacks thrown].
    destruct (papaCallbacks_frame callbacks st) as (Hr & Hn & Hf).
    destruct thrown; cbn; by rewrite ?Hr, ?Hn, ?Hf.
  - case_bool_decide as Hxl; [|done].
    destruct (file_arrayBuffer uploadedFile) as [buffer|err]; [|done].
    destruct (XLSX_read buffer) as [workbook|err]; [|done].
    destruct (XLSX_utils_sheet_to_json _) as [[|row jsonData]|err]; done.
Qed.

Lemma uploadBody_unsupported (uploadedFile : File) (st : State) :
  fileExtension uploadedFile.(file_name) <> Some "csv" ->
  fileExtension uploadedFile.(file_name) <> Some "xlsx" ->
  fileExtension uploadedFile.(file_name) <> Some "xls" ->
  body_of uploadedFile st
  = setError (Some "Please upload a CSV, XLS, or XLSX file") st.
Proof.
  intros Hcsv Hxlsx Hxls. unfold uploadBody.
  rewrite bool_decide_eq_false_2 by done.
  rewrite bool_decide_eq_false_2; [reflexivity|].
  intros Hin.
  destruct (fileExtension (file_name uploadedFile)) as [ext|] eqn:E; cbn in Hin.
  - apply elem_of_cons in Hin as [-> | Hin]; [congruence|].
    apply elem_of_cons in Hin as [-> | Hin]; [congruence|].
    inversion Hin.
  - apply elem_of_cons in Hin as [Hin | Hin]; [discriminate|].
    apply elem_of_cons in Hin as [Hin | Hin]; [discriminate|].
    inversion Hin.
Qed.

Lemma uploadBody_empty_sheet (uploadedFile : File) (st : State)
  (arrayBuffer : list Byte.byte) (workbook : WorkBook WorkSheet) :
  fileExtension uploadedFile.(file_name) = Some "xlsx"
  \/ fileExtension uploadedFile.(file_name) = Some "xls" ->
  uploadedFile.(file_arrayBuffer) = Returns arrayBuffer ->
  XLSX_read arrayBuffer = Returns workbook ->
  XLSX_utils_sheet_to_json
    (workbook.(Sheets WorkSheet)
       !! default "undefined" (head workbook.(SheetNames WorkSheet)))
  = Returns [] ->
  body_of uploadedFile st = st.
Proof.
  intros Hext Hbuf Hread Hjson. unfold uploadBody.
  rewrite bool_decide_eq_false_2 by (destruct Hext as [-> | ->]; discriminate).
  rewrite bool_decide_eq_true_2.
  - by rewrite Hbuf, Hread, Hjson.
  - destruct Hext as [-> | ->]; cbn.
    + apply list_elem_of_here.
    + apply list_elem_of_further, list_elem_of_here.
Qed.

End UploadFacts.

(** C6. Uploading a file whose extension is none of [csv], [xlsx] and
    [xls] ends with the unsupported-format message as the current error,
    and with the dataset rows and the column list as they were. *)
Theorem handleFileUpload_unsupported_extension
  (WorkSheet : Type)
  (Papa_parse : string -> list PapaCallback * option JSError)
  (XLSX_read : list Byte.byte -> JSResult (WorkBook WorkSheet))
  (XLSX_utils_sheet_to_json : option WorkSheet -> JSResult (list DataRow))
  (e : ChangeEvent) (uploadedFile : File) (st : State) :
  e.(target_files) ≫= head = Some uploadedFile ->
  fileExtension uploadedFile.(file_name) <> Some "csv" ->
  fileExtension uploadedFile.(file_name) <> Some "xlsx" ->
  fileExtension uploadedFile.(file_name) <> Some "xls" ->
  (handleFileUpload WorkSheet Papa_parse XLSX_read XLSX_utils_sheet_to_json
     e st).(error) = Some "Please upload a CSV, XLS, or XLSX file"
  /\ (handleFileUpload WorkSheet Papa_parse XLSX_read XLSX_utils_sheet_to_json
        e st).(data) = st.(data)
  /\ (handleFileUpload WorkSheet Papa_parse XLSX_read XLSX_utils_sheet_to_json
        e st).(headers) = st.(headers).
Proof.
  intros He Hcsv Hxlsx Hxls.
  rewrite (handleFileUpload_with_file _ _ _ _ _ _ _ He).
  rewrite uploadBody_unsupported by done.
  repeat split.
Qed.

Lemma handleFileUpload_unsupported_extension_witness :
  (handleFileUpload unit papa_no_rows xlsx_no_sheet sheet_no_rows
     (example_event "notes.TXT") (example_state (Some example_rows))).(error)
  = Some "Please upload a CSV, XLS, or XLSX file"
  /\ (handleFileUpload unit papa_no_rows xlsx_no_sheet sheet_no_rows
        (example_event "notes.TXT") (example_state (Some example_rows))).(data)
     = Some example_rows
  /\ (handleFileUpload unit papa_no_rows xlsx_no_sheet sheet_no_rows
        (example_event "notes.TXT") (example_state (Some example_rows))).(headers)
     = ["when"; "amount"; "note"].
Proof.
  apply (handleFileUpload_unsupported_extension unit papa_no_rows xlsx_no_sheet
           sheet_no_rows (example_event "notes.TXT") (example_file "notes.TXT")
           (example_state (Some example_rows)));
    [reflexivity | discriminate | discriminate | discriminate].
Defined.

(** C9. An upload that carries a file first stores the file's name and
    clears the current error and the report, and only then reads the
    extension; nothing after that writes the report or the file name. So
    every such upload ends with the new file name and without report, and
    one with an unsupported extension does so while the dataset and the
    column list stay as they were. *)
Theorem handleFileUpload_clears_report
  (WorkSheet : Type)
  (Papa_parse : string -> list PapaCallback * option JSError)
  (XLSX_read : list Byte.byte -> JSResult (WorkBook WorkSheet))
  (XLSX_utils_sheet_to_json : option WorkSheet -> JSResult (list DataRow))
  (e : ChangeEvent) (uploadedFile : File) (st : State) :
  e.(target_files) ≫= head = Some uploadedFile ->
  handleFileUpload WorkSheet Papa_parse XLSX_read XLSX_utils_sheet_to_json e st
  = uploadBody WorkSheet Papa_parse XLSX_read XLSX_utils_sheet_to_json
      uploadedFile (uploadPrelude uploadedFile st)
  /\ uploadPrelude uploadedFile st
     = {| file := Some uploadedFile; fileName := uploadedFile.(file_name);
          data := st.(data); headers := st.(headers);
          isAnalyzing := st.(isAnalyzing); report := None; error := None;
          regeneratePrompt := st.(regeneratePrompt) |}
  /\ (handleFileUpload WorkSheet Papa_parse XLSX_read XLSX_utils_sheet_to_json
        e st).(fileName) = uploadedFile.(file_name)
  /\ (handleFileUpload WorkSheet Papa_parse XLSX_read XLSX_utils_sheet_to_json
        e st).(report) = None
  /\ (fileExtension uploadedFile.(file_name) <> Some "csv" ->
      fileExtension uploadedFile.(file_name) <> Some "xlsx" ->
      fileExtension uploadedFile.(file_name) <> Some "xls" ->
      handleFileUpload WorkSheet Papa_parse XLSX_read XLSX_utils_sheet_to_json e st
      = {| file := Some uploadedFile; fileName := uploadedFile.(file_name);
           data := st.(data); headers := st.(headers);
           isAnalyzing := st.(isAnalyzing); report := None;
           error := Some "Please upload a CSV, XLS, or XLSX file";
           regeneratePrompt := st.(regeneratePrompt) |}).
Proof.
  intros He.
  rewrite (handleFileUpload_with_file _ _ _ _ _ _ _ He).
  destruct (uploadBody_frame WorkSheet Papa_parse XLSX_read
              XLSX_utils_sheet_to_json uploadedFile
              (uploadPrelude uploadedFile st)) as (Hr & Hn & _).
  split; [reflexivity|]. split; [reflexivity|].
  split; [by rewrite Hn|]. split; [by rewrite Hr|].
  intros Hcsv Hxlsx Hxls. by rewrite uploadBody_unsupported.
Qed.

Lemma handleFileUpload_clears_report_witness :
  (handleFileUpload unit papa_no_rows xlsx_no_sheet sheet_no_rows
     (example_event "notes.txt") (example_state (Some example_rows))).(report)
  = None
  /\ (handleFileUpload unit papa_no_rows xlsx_no_sheet sheet_no_rows
        (example_event "notes.txt") (example_state (Some example_rows))).(data)
     = Some example_rows
  /\ (handleFileUpload unit papa_no_rows xlsx_no_sheet sheet_no_rows
        (example_event "sales.csv") (example_state (Some example_rows))).(report)
     = None.
Proof.
  split; [|split].
  - pose proof (handleFileUpload_clears_report unit papa_no_rows xlsx_no_sheet
                  sheet_no_rows (example_event "notes.txt")
                  (example_file "notes.txt") (example_state (Some example_rows))
                  eq_refl) as (_ & _ & _ & H & _).
    exact H.
  - pose proof (handleFileUpload_clears_report unit papa_no_rows xlsx_no_sheet
                  sheet_no_rows (example_event "notes.txt")
                  (example_file "notes.txt") (example_state (Some example_rows))
                  eq_refl) as (_ & _ & _ & _ & H).
    rewrite H; [reflexivity | discriminate | discriminate | discriminate].
  - pose proof (handleFileUpload_clears_report unit papa_no_rows xlsx_no_sheet
                  sheet_no_rows (example_event "sales.csv")
                  (example_file "sales.csv") (example_state (Some example_rows))
                  eq_refl) as (_ & _ & _ & H & _).
    exact H.
Defined.

(** C10. Uploading an [xlsx] or [xls] file that is read without error and
    whose first sheet converts to no row record leaves the dataset and the
    column list as they were and ends with no current error: the handler
    ends in the state its first statements produced. *)
Theorem handleFileUpload_empty_spreadsheet
  (WorkSheet : Type)
  (Papa_parse : string -> list PapaCallback * option JSError)
  (XLSX_read : list Byte.byte -> JSResult (WorkBook WorkSheet))
  (XLSX_utils_sheet_to_json : option WorkSheet -> JSResult (list DataRow))
  (e : ChangeEvent) (uploadedFile : File) (st : State)
  (arrayBuffer : list Byte.byte) (workbook : WorkBook WorkSheet) :
  e.(target_files) ≫= head = Some uploadedFile ->
  fileExtension uploadedFile.(file_name) = Some "xlsx"
  \/ fileExtension uploadedFile.(file_name) = Some "xls" ->
  uploadedFile.(file_arrayBuffer) = Returns arrayBuffer ->
  XLSX_read arrayBuffer = Returns workbook ->
  XLSX_utils_sheet_to_json
    (workbook.(Sheets WorkSheet)
       !! default "undefined" (head workbook.(SheetNames WorkSheet)))
  = Returns [] ->
  handleFileUpload WorkSheet Papa_parse XLSX_read XLSX_utils_sheet_to_json e st
  = uploadPrelude uploadedFile st
  /\ (handleFileUpload WorkSheet Papa_parse XLSX_read XLSX_utils_sheet_to_json
        e st).(data) = st.(data)
  /\ (handleFileUpload WorkSheet Papa_parse XLSX_read XLSX_utils_sheet_to_json
        e st).(headers) = st.(headers)
  /\ (handleFileUpload WorkSheet Papa_parse XLSX_read XLSX_utils_sheet_to_json
        e st).(error) = None.
Proof.
  intros He Hext Hbuf Hread Hjson.
  rewrite (handleFileUpload_with_file _ _ _ _ _ _ _ He).
  rewrite (uploadBody_empty_sheet _ _ _ _ _ _ _ _ Hext Hbuf Hread Hjson).
  repeat split.
Qed.

Lemma handleFileUpload_empty_spreadsheet_witness :
  handleFileUpload unit papa_no_rows xlsx_no_sheet sheet_no_rows
    (example_event "empty.XLSX") (example_state (Some example_rows))
  = uploadPrelude (example_file "empty.XLSX") (example_state (Some example_rows))
  /\ (handleFileUpload unit papa_no_rows xlsx_no_sheet sheet_no_rows
        (example_event "empty.XLSX") (example_state (Some example_rows))).(data)
     = Some example_rows
  /\ (handleFileUpload unit papa_no_rows xlsx_no_sheet sheet_no_rows
        (example_event "empty.XLSX") (example_state (Some example_rows))).(headers)
     = ["when"; "amount"; "note"]
  /\ (handleFileUpload unit papa_no_rows xlsx_no_sheet sheet_no_rows
        (example_event "empty.XLSX") (example_state (Some example_rows))).(error)
     = None.
Proof.
  apply (handleFileUpload_empty_spreadsheet unit papa_no_rows xlsx_no_sheet
           sheet_no_rows (example_event "empty.XLSX") (example_file "empty.XLSX")
           (example_state (Some example_rows)) []
           {| SheetNames := []; Sheets := ∅ |});
    [reflexivity | left; reflexivity | reflexivity | reflexivity | reflexivity].
Defined.

(** ** The renderer *)

(** C4. On ["# Title\n\nSome **bold** and *italic* text."] the renderer
    gives a level-1 heading around [Title], the marker and its space gone,
    a strong span around [bold], an italic span around [italic], and a
    paragraph boundary between the heading and the sentence. The passes run
    in the order [###], [##], [#], double emphasis, single emphasis,
    paragraph, line break, each on the result of the one before. *)
Theorem marked_scenario :
  marked scenario
  = "<h1>Title</h1>" ++ "</p><p>" ++ "Some " ++ "<strong>bold</strong>"
    ++ " and " ++ "<em>italic</em>" ++ " text."
  /\ (forall text : string,
        marked text
        = replace (literal nl "<br>")
            (replace (literal (nl ++ nl) "</p><p>")
               (replace (emphasis "*" "em")
                  (replace (emphasis "**" "strong")
                     (replace (heading "# " "h1")
                        (replace (heading "## " "h2")
                           (replace (heading "### " "h3") text)))))))
  /\ replace re_h3 scenario = scenario
  /\ replace re_h2 scenario = scenario
  /\ replace re_h1 scenario
     = "<h1>Title</h1>" ++ nl ++ nl ++ "Some **bold** and *italic* text."
  /\ replace re_strong
       ("<h1>Title</h1>" ++ nl ++ nl ++ "Some **bold** and *italic* text.")
     = "<h1>Title</h1>" ++ nl ++ nl
       ++ "Some <strong>bold</strong> and *italic* text."
  /\ replace re_em
       ("<h1>Title</h1>" ++ nl ++ nl
        ++ "Some <strong>bold</strong> and *italic* text.")
     = "<h1>Title</h1>" ++ nl ++ nl
       ++ "Some <strong>bold</strong> and <em>italic</em> text."
  /\ replace re_paragraph
       ("<h1>Title</h1>" ++ nl ++ nl
        ++ "Some <strong>bold</strong> and <em>italic</em> text.")
     = "<h1>Title</h1></p><p>Some <strong>bold</strong> and <em>italic</em> text."
  /\ replace re_break
       "<h1>Title</h1></p><p>Some <strong>bold</strong> and <em>italic</em> text."
     = "<h1>Title</h1></p><p>Some <strong>bold</strong> and <em>italic</em> text.".
Proof.
  repeat split; vm_compute; reflexivity.
Qed.

Section RendererFacts.

(** A regular expression that matches nowhere before a character other
    than [c] leaves a text without [c] as it is. *)
Lemma replace_from_absent (re : Matcher) (c : ascii) :
  (forall before a s, a <> c -> re before (String a s) = None) ->
  forall (s : string) (before : list ascii),
    contains c s = false -> replace_from re before 0 s = s.
Proof.
  intros Hre s. induction s as [|a s IH]; intros before Hc; [reflexivity|].
  cbn in Hc. apply orb_false_iff in Hc as [Ha Hs].
  apply Ascii.eqb_neq in Ha.
  cbn [replace_from]. rewrite Hre by done. by rewrite IH.
Qed.

Lemma strip_prefix_other (c a : ascii) (p s : string) :
  a <> c -> strip_prefix (String c p) (String a s) = None.
Proof.
  intros Hne. cbn. destruct (Ascii.eqb c a) eqn:E; [|reflexivity].
  apply Ascii.eqb_eq in E. congruence.
Qed.

Lemma heading_absent (c : ascii) (marker tag : string) :
  forall before a s, a <> c -> heading (String c marker) tag before (String a s) = None.
Proof.
  intros before a s Hne. unfold heading.
  rewrite strip_prefix_other by done. by destruct (at_line_start before).
Qed.

Lemma emphasis_absent (c : ascii) (delim tag : string) :
  forall before a s, a <> c -> emphasis (String c delim) tag before (String a s) = None.
Proof.
  intros before a s Hne. unfold emphasis. by rewrite strip_prefix_other.
Qed.

Lemma literal_absent (c : ascii) (lit replacement : string) :
  forall before a s,
    a <> c -> literal (String c lit) replacement before (String a s) = None.
Proof.
  intros before a s Hne. unfold literal. by rewrite strip_prefix_other.
Qed.

(** The seven regular expressions match at least one character, as
    [replace_from] takes for granted. *)
Lemma heading_consumes (c : ascii) (marker tag : string) (before : list ascii)
  (s replacement : string) (len : nat) :
  heading (String c marker) tag before s = Some (replacement, len) -> 0 < len.
Proof.
  unfold heading. destruct (at_line_start before); [|discriminate].
  destruct (strip_prefix _ s); [|discriminate]. intros [= _ <-]. cbn. lia.
Qed.

Lemma emphasis_consumes (c : ascii) (delim tag : string) (before : list ascii)
  (s replacement : string) (len : nat) :
  emphasis (String c delim) tag before s = Some (replacement, len) -> 0 < len.
Proof.
  unfold emphasis. destruct (strip_prefix _ s) as [rest|]; [|discriminate].
  destruct (find_close _ rest); [|discriminate]. intros [= _ <-]. cbn. lia.
Qed.

Lemma literal_consumes (c : ascii) (lit replacement : string)
  (before : list ascii) (s r : string) (len : nat) :
  literal (String c lit) replacement before s = Some (r, len) -> 0 < len.
Proof.
  unfold literal. destruct (strip_prefix _ s); [|discriminate].
  intros [= _ <-]. cbn. lia.
Qed.


End RendererFacts.




(** * Further properties *)

(** ** Strings *)

Lemma append_cons (a : ascii) (s1 s2 : string) :
  String a s1 ++ s2 = String a (s1 ++ s2).
Proof. reflexivity. Qed.

Lemma append_empty_l (s : string) : EmptyString ++ s = s.
Proof. reflexivity. Qed.

Lemma append_empty_r (s : string) : s ++ EmptyString = s.
Proof.
  induction s as [|a s IH]; [reflexivity|]. by rewrite append_cons, IH.
Qed.

Lemma append_associative (s1 s2 s3 : string) :
  (s1 ++ s2) ++ s3 = s1 ++ (s2 ++ s3).
Proof.
  induction s1 as [|a s1 IH]; [reflexivity|]. by rewrite !append_cons, IH.
Qed.

Lemma length_append (s1 s2 : string) :
  String.length (s1 ++ s2) = String.length s1 + String.length s2.
Proof.
  induction s1 as [|a s1 IH]; [reflexivity|]. rewrite append_cons. cbn.
  by rewrite IH.
Qed.

Lemma contains_append (c : ascii) (s1 s2 : string) :
  contains c (s1 ++ s2) = contains c s1 || contains c s2.
Proof.
  induction s1 as [|a s1 IH]; [reflexivity|]. rewrite append_cons. cbn.
  by rewrite IH, orb_assoc.
Qed.

Lemma strip_prefix_same (a : ascii) (p s : string) :
  strip_prefix (String a p) (String a s) = strip_prefix p s.
Proof. cbn [strip_prefix]. by rewrite Ascii.eqb_refl. Qed.

Lemma strip_prefix_append (p s : string) : strip_prefix p (p ++ s) = Some s.
Proof.
  induction p as [|a p IH]; [reflexivity|]. rewrite append_cons. cbn.
  by rewrite Ascii.eqb_refl.
Qed.

(** ** The replacement loop *)

Lemma replace_from_skip_all (re : Matcher) (s : string) :
  forall (before : list ascii) (n : nat),
    String.length s <= n -> replace_from re before n s = EmptyString.
Proof.
  induction s as [|a s IH]; intros before n Hn; [reflexivity|].
  cbn in Hn. destruct n as [|n]; [lia|]. cbn. apply IH. lia.
Qed.

Lemma replace_from_skip_prefix (re : Matcher) (s1 s2 : string) :
  forall before : list ascii,
    replace_from re before (String.length s1) (s1 ++ s2)
    = replace_from re (rev (list_ascii_of_string s1) ++ before)%list 0 s2.
Proof.
  induction s1 as [|a s1 IH]; intros before; [reflexivity|].
  rewrite append_cons. cbn. rewrite IH. by rewrite <- app_assoc.
Qed.

Lemma replace_from_absent_prefix (re : Matcher) (c : ascii) :
  (forall before a s, a <> c -> re before (String a s) = None) ->
  forall (s1 s2 : string) (before : list ascii),
    contains c s1 = false ->
    replace_from re before 0 (s1 ++ s2)
    = s1 ++ replace_from re (rev (list_ascii_of_string s1) ++ before)%list 0 s2.
Proof.
  intros Hre s1. induction s1 as [|a s1 IH]; intros s2 before Hc; [reflexivity|].
  cbn in Hc. apply orb_false_iff in Hc as [Ha Hs].
  apply Ascii.eqb_neq in Ha.
  rewrite !append_cons. cbn [replace_from]. rewrite Hre by done.
  rewrite IH by done. cbn. by rewrite <- app_assoc.
Qed.

(** The last replacement leaves no line feed, whatever it starts from. *)
Lemma replace_break_no_line_feed (s : string) :
  forall (before : list ascii) (skip : nat),
    contains LF (replace_from re_break before skip s) = false.
Proof.
  induction s as [|a s IH]; intros before skip; [reflexivity|].
  cbn [replace_from]. destruct skip as [|k]; [|apply IH].
  unfold re_break, literal, nl. cbn [strip_prefix].
  destruct (Ascii.eqb LF a) eqn:E.
  - cbn. apply IH.
  - cbn. rewrite Ascii.eqb_sym, E. apply IH.
Qed.

(** X1. The rendered text never holds a line feed, whatever the input:
    every line feed has become part of a paragraph boundary or a line-break
    element. *)
Theorem marked_no_line_feed (text : string) :
  contains LF (marked text) = false.
Proof.
  unfold marked, replace. apply replace_break_no_line_feed.
Qed.

(** ** Single lines and spans *)

Lemma replace_absent (re : Matcher) (c : ascii) (s : string) :
  (forall before a s', a <> c -> re before (String a s') = None) ->
  contains c s = false -> replace re s = s.
Proof. intros Hre Hc. by apply (replace_from_absent re c). Qed.

Lemma plain_text_parts (s : string) :
  plain_text s = true ->
  contains "#" s = false /\ contains "*" s = false /\ contains LF s = false.
Proof.
  unfold plain_text. intros H.
  apply andb_true_iff in H as [H Hlf]. apply andb_true_iff in H as [Hhash Hstar].
  by apply negb_true_iff in Hlf, Hhash, Hstar.
Qed.

(** A heading marker at the start of the input, followed by text without
    line terminator: the match covers the whole input. *)
Lemma replace_heading_line (c : ascii) (m tag t : string) :
  line_rest t = t ->
  replace (heading (String c m) tag) (String c m ++ t)
  = "<" ++ tag ++ ">" ++ t ++ "</" ++ tag ++ ">".
Proof.
  intros Ht. unfold replace. rewrite append_cons. cbn [replace_from].
  unfold heading at 1. cbn [at_line_start].
  rewrite <- append_cons, strip_prefix_append, Ht.
  rewrite replace_from_skip_all.
  - by rewrite append_empty_r.
  - rewrite length_append. cbn. lia.
Qed.

(** X2. A heading line of level 3, 2 or 1 whose text holds no [#], no
    [*] and no line terminator is rendered as the heading element of that
    level around the text, the marker and its space removed and nothing
    else added. *)
Theorem marked_heading_line (t : string) :
  plain_text t = true ->
  line_rest t = t ->
  marked ("### " ++ t) = "<h3>" ++ t ++ "</h3>"
  /\ marked ("## " ++ t) = "<h2>" ++ t ++ "</h2>"
  /\ marked ("# " ++ t) = "<h1>" ++ t ++ "</h1>".
Proof.
  intros Hplain Hline.
  destruct (plain_text_parts t Hplain) as (Hhash & Hstar & Hlf).
  assert (Hrest : forall tag,
             contains "#" tag = false -> contains "*" tag = false ->
             contains LF tag = false ->
             replace re_break
               (replace re_paragraph
                  (replace re_em
                     (replace re_strong ("<" ++ tag ++ ">" ++ t ++ "</" ++ tag ++ ">"))))
             = "<" ++ tag ++ ">" ++ t ++ "</" ++ tag ++ ">").
  { intros tag H1 H2 H3.
    assert (Hc : forall c, contains c "<" = false -> contains c ">" = false ->
                           contains c "</" = false -> contains c tag = false ->
                           contains c t = false ->
                           contains c ("<" ++ tag ++ ">" ++ t ++ "</" ++ tag ++ ">")
                           = false).
    { intros c Ha Hb Hd He Hf. by rewrite !contains_append, Ha, Hb, Hd, He, Hf. }
    rewrite (replace_absent re_strong "*") by (apply emphasis_absent || by apply Hc).
    rewrite (replace_absent re_em "*") by (apply emphasis_absent || by apply Hc).
    rewrite (replace_absent re_paragraph LF) by (apply literal_absent || by apply Hc).
    by rewrite (replace_absent re_break LF) by (apply literal_absent || by apply Hc). }
  assert (Hwrapped : forall tag, contains "#" tag = false ->
             contains "#" ("<" ++ tag ++ ">" ++ t ++ "</" ++ tag ++ ">") = false).
  { intros tag Htag. by rewrite !contains_append, Htag, Hhash. }
  unfold marked. split; [|split].
  - unfold re_h3 at 1. rewrite (replace_heading_line "#" "## " "h3" t Hline).
    rewrite (replace_absent re_h2 "#") by (apply heading_absent || by apply Hwrapped).
    rewrite (replace_absent re_h1 "#") by (apply heading_absent || by apply Hwrapped).
    by apply (Hrest "h3").
  - assert (H3 : replace re_h3 ("## " ++ t) = "## " ++ t).
    { unfold replace.
      change ("## " ++ t) with (String "#" (String "#" (String " " t))).
      cbn. by rewrite (replace_from_absent re_h3 "#") by (apply heading_absent || done). }
    rewrite H3. unfold re_h2 at 1.
    rewrite (replace_heading_line "#" "# " "h2" t Hline).
    rewrite (replace_absent re_h1 "#") by (apply heading_absent || by apply Hwrapped).
    by apply (Hrest "h2").
  - assert (H3 : replace re_h3 ("# " ++ t) = "# " ++ t).
    { unfold replace. change ("# " ++ t) with (String "#" (String " " t)).
      cbn. by rewrite (replace_from_absent re_h3 "#") by (apply heading_absent || done). }
    assert (H2 : replace re_h2 ("# " ++ t) = "# " ++ t).
    { unfold replace. change ("# " ++ t) with (String "#" (String " " t)).
      cbn. by rewrite (replace_from_absent re_h2 "#") by (apply heading_absent || done). }
    rewrite H3, H2. unfold re_h1 at 1.
    rewrite (replace_heading_line "#" " " "h1" t Hline).
    by apply (Hrest "h1").
Qed.

Lemma marked_heading_line_witness :
  marked ("### " ++ "Key Findings") = "<h3>" ++ "Key Findings" ++ "</h3>"
  /\ marked ("## " ++ "Key Findings") = "<h2>" ++ "Key Findings" ++ "</h2>"
  /\ marked ("# " ++ "Key Findings") = "<h1>" ++ "Key Findings" ++ "</h1>".
Proof.
  apply (marked_heading_line "Key Findings"); reflexivity.
Defined.

Lemma line_rest_cons (a : ascii) (t : string) :
  line_rest (String a t) = String a t ->
  starts_with_terminator (String a t) = false /\ line_rest t = t.
Proof.
  cbn [line_rest]. destruct (starts_with_terminator (String a t)); [discriminate|].
  intros [= H]. by split.
Qed.

(** A text that starts no line terminator still starts none when a text
    beginning with [*] is put after it. *)
Lemma starts_with_terminator_before_star (a : ascii) (t x : string) :
  starts_with_terminator (String a t) = false ->
  starts_with_terminator (String a t ++ String "*" x) = false.
Proof.
  rewrite append_cons. unfold starts_with_terminator.
  destruct (Ascii.eqb a LF || Ascii.eqb a CR); [done|].
  destruct (Ascii.eqb a (ascii_of_nat 226)); [|done].
  destruct t as [|b [|c t']]; rewrite ?append_cons, ?append_empty_l; cbn.
  - by destruct x.
  - intros _. by rewrite andb_false_r.
  - done.
Qed.

Lemma find_close_absent (c : ascii) (delim s : string) :
  contains c s = false -> find_close (String c delim) s = None.
Proof.
  induction s as [|a s IH]; intros Hc; [reflexivity|].
  cbn in Hc. apply orb_false_iff in Hc as [Ha Hs]. apply Ascii.eqb_neq in Ha.
  cbn [find_close]. rewrite strip_prefix_other by done.
  destruct (starts_with_terminator (String a s)); [reflexivity|].
  by rewrite IH.
Qed.

Lemma find_close_found (delim t b : string) :
  contains "*" t = false ->
  line_rest t = t ->
  find_close (String "*" delim) (t ++ String "*" delim ++ b) = Some t.
Proof.
  induction t as [|a t IH]; intros Hc Hline.
  - cbn [append]. change (EmptyString ++ String "*" delim ++ b)
      with (String "*" delim ++ b).
    destruct (String "*" delim ++ b) eqn:E; [discriminate|].
    cbn [find_close]. by rewrite <- E, strip_prefix_append.
  - cbn in Hc. apply orb_false_iff in Hc as [Ha Hs]. apply Ascii.eqb_neq in Ha.
    apply line_rest_cons in Hline as [Hstart Hline].
    pose proof (starts_with_terminator_before_star a t (delim ++ b) Hstart) as Hst.
    rewrite !append_cons in *. cbn [find_close].
    rewrite strip_prefix_other by done.
    rewrite Hst. by rewrite IH.
Qed.

(** One emphasis span between texts free of [*]: the match covers the
    span, and nothing else matches. *)
Lemma replace_emphasis_span (d tag a t b : string) :
  contains "*" a = false -> contains "*" t = false -> contains "*" b = false ->
  line_rest t = t ->
  replace (emphasis (String "*" d) tag)
    (a ++ String "*" d ++ t ++ String "*" d ++ b)
  = a ++ "<" ++ tag ++ ">" ++ t ++ "</" ++ tag ++ ">" ++ b.
Proof.
  intros Ha Ht Hb Hline. unfold replace.
  rewrite (replace_from_absent_prefix _ "*") by (apply emphasis_absent || done).
  f_equal. rewrite append_cons. cbn [replace_from].
  unfold emphasis at 1. rewrite <- append_cons, strip_prefix_append.
  rewrite find_close_found by done.
  rewrite <- (append_associative d), <- (append_associative (d ++ t)).
  replace (pred (String.length (String "*" d) + String.length t
                 + String.length (String "*" d)))
    with (String.length ((d ++ t) ++ String "*" d))
    by (rewrite !length_append; cbn; lia).
  rewrite replace_from_skip_prefix.
  rewrite (replace_from_absent _ "*") by (apply emphasis_absent || done).
  by rewrite !append_associative.
Qed.

Lemma strong_none_before_single_star (before : list ascii) (t b : string) :
  contains "*" t = false -> contains "*" b = false ->
  re_strong before (String "*" (t ++ String "*" b)) = None.
Proof.
  intros Ht Hb. unfold re_strong, emphasis. rewrite strip_prefix_same.
  destruct t as [|c t].
  - rewrite append_empty_l, strip_prefix_same. cbn [strip_prefix].
    by rewrite find_close_absent.
  - cbn in Ht. apply orb_false_iff in Ht as [Hc _]. apply Ascii.eqb_neq in Hc.
    by rewrite append_cons, strip_prefix_other.
Qed.

Lemma strong_none_at_last_star (before : list ascii) (b : string) :
  contains "*" b = false -> re_strong before (String "*" b) = None.
Proof.
  intros Hb. unfold re_strong, emphasis. rewrite strip_prefix_same.
  destruct b as [|c b]; [reflexivity|].
  cbn in Hb. apply orb_false_iff in Hb as [Hc _]. apply Ascii.eqb_neq in Hc.
  by rewrite strip_prefix_other.
Qed.

Lemma replace_strong_single_stars (a t b : string) :
  contains "*" a = false -> contains "*" t = false -> contains "*" b = false ->
  replace re_strong (a ++ "*" ++ t ++ "*" ++ b) = a ++ "*" ++ t ++ "*" ++ b.
Proof.
  intros Ha Ht Hb. unfold replace.
  rewrite (replace_from_absent_prefix _ "*") by (apply emphasis_absent || done).
  f_equal. change ("*" ++ t ++ "*" ++ b) with (String "*" (t ++ String "*" b)).
  cbn [replace_from]. rewrite strong_none_before_single_star by done. f_equal.
  rewrite (replace_from_absent_prefix _ "*") by (apply emphasis_absent || done).
  f_equal. cbn [replace_from]. rewrite strong_none_at_last_star by done. f_equal.
  by rewrite (replace_from_absent _ "*") by (apply emphasis_absent || done).
Qed.

(** X3. Between texts that hold no [#], no [*] and no line feed, a text
    without line terminator wrapped in [**] becomes a strong span, and one
    wrapped in [*] an italic span, around exactly that text; the
    surroundings are left as they are. *)
Theorem marked_emphasis_span (a t b : string) :
  plain_text a = true -> plain_text t = true -> plain_text b = true ->
  line_rest t = t ->
  marked (a ++ "**" ++ t ++ "**" ++ b) = a ++ "<strong>" ++ t ++ "</strong>" ++ b
  /\ marked (a ++ "*" ++ t ++ "*" ++ b) = a ++ "<em>" ++ t ++ "</em>" ++ b.
Proof.
  intros Hpa Hpt Hpb Hline.
  destruct (plain_text_parts a Hpa) as (Ha1 & Ha2 & Ha3).
  destruct (plain_text_parts t Hpt) as (Ht1 & Ht2 & Ht3).
  destruct (plain_text_parts b Hpb) as (Hb1 & Hb2 & Hb3).
  assert (Hc : forall c x y, contains c x = false -> contains c y = false ->
                 contains c a = false -> contains c t = false ->
                 contains c b = false ->
                 contains c (a ++ x ++ t ++ y ++ b) = false).
  { intros c x y Hx Hy H1 H2 H3. by rewrite !contains_append, Hx, Hy, H1, H2, H3. }
  unfold marked. split.
  - rewrite (replace_absent re_h3 "#") by (apply heading_absent || by apply Hc).
    rewrite (replace_absent re_h2 "#") by (apply heading_absent || by apply Hc).
    rewrite (replace_absent re_h1 "#") by (apply heading_absent || by apply Hc).
    unfold re_strong at 1.
    rewrite (replace_emphasis_span "*" "strong" a t b) by done.
    change ("<" ++ "strong" ++ ">" ++ t ++ "</" ++ "strong" ++ ">" ++ b)
      with ("<strong>" ++ t ++ "</strong>" ++ b).
    rewrite (replace_absent re_em "*") by (apply emphasis_absent || by apply Hc).
    rewrite (replace_absent re_paragraph LF) by (apply literal_absent || by apply Hc).
    by rewrite (replace_absent re_break LF) by (apply literal_absent || by apply Hc).
  - rewrite (replace_absent re_h3 "#") by (apply heading_absent || by apply Hc).
    rewrite (replace_absent re_h2 "#") by (apply heading_absent || by apply Hc).
    rewrite (replace_absent re_h1 "#") by (apply heading_absent || by apply Hc).
    rewrite replace_strong_single_stars by done.
    unfold re_em at 1.
    rewrite (replace_emphasis_span EmptyString "em" a t b) by done.
    change ("<" ++ "em" ++ ">" ++ t ++ "</" ++ "em" ++ ">" ++ b)
      with ("<em>" ++ t ++ "</em>" ++ b).
    rewrite (replace_absent re_paragraph LF) by (apply literal_absent || by apply Hc).
    by rewrite (replace_absent re_break LF) by (apply literal_absent || by apply Hc).
Qed.

Lemma marked_emphasis_span_witness :
  marked ("Revenue " ++ "**" ++ "grew 12%" ++ "**" ++ " in Q3.")
  = "Revenue " ++ "<strong>" ++ "grew 12%" ++ "</strong>" ++ " in Q3."
  /\ marked ("Revenue " ++ "*" ++ "grew 12%" ++ "*" ++ " in Q3.")
     = "Revenue " ++ "<em>" ++ "grew 12%" ++ "</em>" ++ " in Q3.".
Proof.
  apply (marked_emphasis_span "Revenue " "grew 12%" " in Q3."); reflexivity.
Defined.

Lemma paragraph_none_at_single_line_feed (before : list ascii) (b : string) :
  contains LF b = false -> re_paragraph before (String LF b) = None.
Proof.
  intros Hb. unfold re_paragraph, literal.
  change (nl ++ nl) with (String LF (String LF EmptyString)).
  rewrite strip_prefix_same. destruct b as [|c b]; [reflexivity|].
  cbn in Hb. apply orb_false_iff in Hb as [Hc _]. apply Ascii.eqb_neq in Hc.
  by rewrite strip_prefix_other.
Qed.

(** X4. Between two texts that hold no [#], no [*] and no line feed, one
    line feed becomes a line-break element and two line feeds become one
    paragraph boundary; the texts are left as they are. *)
Theorem marked_line_breaks (a b : string) :
  plain_text a = true -> plain_text b = true ->
  marked (a ++ nl ++ b) = a ++ "<br>" ++ b
  /\ marked (a ++ nl ++ nl ++ b) = a ++ "</p><p>" ++ b.
Proof.
  intros Hpa Hpb.
  destruct (plain_text_parts a Hpa) as (Ha1 & Ha2 & Ha3).
  destruct (plain_text_parts b Hpb) as (Hb1 & Hb2 & Hb3).
  assert (Hc : forall c x, contains c x = false ->
                 contains c a = false -> contains c b = false ->
                 contains c (a ++ x ++ b) = false).
  { intros c x Hx H1 H2. by rewrite !contains_append, Hx, H1, H2. }
  unfold marked. split.
  - rewrite (replace_absent re_h3 "#") by (apply heading_absent || by apply Hc).
    rewrite (replace_absent re_h2 "#") by (apply heading_absent || by apply Hc).
    rewrite (replace_absent re_h1 "#") by (apply heading_absent || by apply Hc).
    rewrite (replace_absent re_strong "*") by (apply emphasis_absent || by apply Hc).
    rewrite (replace_absent re_em "*") by (apply emphasis_absent || by apply Hc).
    assert (Hp : replace re_paragraph (a ++ nl ++ b) = a ++ nl ++ b).
    { unfold replace.
      rewrite (replace_from_absent_prefix _ LF) by (apply literal_absent || done).
      f_equal. change (nl ++ b) with (String LF b). cbn [replace_from].
      rewrite paragraph_none_at_single_line_feed by done. f_equal.
      by rewrite (replace_from_absent _ LF) by (apply literal_absent || done). }
    rewrite Hp. unfold replace.
    rewrite (replace_from_absent_prefix _ LF) by (apply literal_absent || done).
    f_equal. change (nl ++ b) with (String LF b). cbn [replace_from].
    unfold re_break at 1, literal at 1. unfold nl at 1. rewrite strip_prefix_same.
    cbn [strip_prefix String.length pred]. rewrite append_cons. f_equal.
    by rewrite (replace_from_absent _ LF) by (apply literal_absent || done).
  - assert (Hc2 : forall c, contains c nl = false ->
                   contains c a = false -> contains c b = false ->
                   contains c (a ++ nl ++ nl ++ b) = false).
    { intros c Hx H1 H2. by rewrite !contains_append, Hx, H1, H2. }
    rewrite (replace_absent re_h3 "#") by (apply heading_absent || by apply Hc2).
    rewrite (replace_absent re_h2 "#") by (apply heading_absent || by apply Hc2).
    rewrite (replace_absent re_h1 "#") by (apply heading_absent || by apply Hc2).
    rewrite (replace_absent re_strong "*") by (apply emphasis_absent || by apply Hc2).
    rewrite (replace_absent re_em "*") by (apply emphasis_absent || by apply Hc2).
    assert (Hp : replace re_paragraph (a ++ nl ++ nl ++ b) = a ++ "</p><p>" ++ b).
    { unfold replace.
      rewrite (replace_from_absent_prefix _ LF) by (apply literal_absent || done).
      f_equal. change (nl ++ nl ++ b) with (String LF (String LF b)).
      cbn [replace_from]. unfold re_paragraph at 1, literal at 1.
      change (nl ++ nl) with (String LF (String LF EmptyString)).
      rewrite !strip_prefix_same. cbn [strip_prefix String.length pred replace_from].
      f_equal.
      by rewrite (replace_from_absent _ LF) by (apply literal_absent || done). }
    rewrite Hp.
    by rewrite (replace_absent re_break LF) by (apply literal_absent || by apply Hc).
Qed.

Lemma marked_line_breaks_witness :
  marked ("Costs fell." ++ nl ++ "Margins rose.")
  = "Costs fell." ++ "<br>" ++ "Margins rose."
  /\ marked ("Costs fell." ++ nl ++ nl ++ "Margins rose.")
     = "Costs fell." ++ "</p><p>" ++ "Margins rose.".
Proof.
  apply (marked_line_breaks "Costs fell." "Margins rose."); reflexivity.
Defined.

(** ** Type inference *)





(** ** The analysis handler *)

Lemma analyzeData_shapes
  (Date_parse : string -> option Z)
  (JSON_stringify_summary : DataSummary -> string)
  (JSON_stringify_rows : list DataRow -> string)
  (fetch_json : Request -> JSResult ClaudeResponse)
  (isRegenerate : bool) (st : State) (rows : list DataRow) :
  st.(data) = Some rows ->
  rows <> [] ->
  (analyzeData Date_parse JSON_stringify_summary JSON_stringify_rows
     fetch_json isRegenerate st).2
  = [analysisRequest Date_parse JSON_stringify_summary JSON_stringify_rows
       isRegenerate st rows]
  /\ ((exists text : string,
         (analyzeData Date_parse JSON_stringify_summary JSON_stringify_rows
            fetch_json isRegenerate st).1
         = {| file := st.(file); fileName := st.(fileName); data := st.(data);
              headers := st.(headers); isAnalyzing := false;
              report := Some text; error := None;
              regeneratePrompt := EmptyString |})
      \/ (exists message : string,
            (analyzeData Date_parse JSON_stringify_summary JSON_stringify_rows
               fetch_json isRegenerate st).1
            = {| file := st.(file); fileName := st.(fileName); data := st.(data);
                 headers := st.(headers); isAnalyzing := false;
                 report := st.(report); error := Some message;
                 regeneratePrompt := st.(regeneratePrompt) |})).
Proof.
  intros Hdata Hne.
  rewrite (analyzeData_with_data _ _ _ _ _ _ rows Hdata Hne).
  split; [reflexivity|]. cbn [fst].
  destruct (fetch_json _) as [result|err].
  - destruct (content result) as [[|block blocks]|].
    + right. by eexists.
    + left. by eexists.
    + right. by eexists.
  - right. by eexists.
Qed.



(** X8. A pending directive has no part in an initial analysis: with
    another directive in the state the same requests are sent and the
    handler ends in the same state, the directive cell apart. *)
Theorem analyzeData_initial_ignores_directive
  (Date_parse : string -> option Z)
  (JSON_stringify_summary : DataSummary -> string)
  (JSON_stringify_rows : list DataRow -> string)
  (fetch_json : Request -> JSResult ClaudeResponse)
  (st : State) (directive reset : string) :
  (analyzeData Date_parse JSON_stringify_summary JSON_stringify_rows
     fetch_json false (setRegeneratePrompt directive st)).2
  = (analyzeData Date_parse JSON_stringify_summary JSON_stringify_rows
       fetch_json false st).2
  /\ setRegeneratePrompt reset
       (analyzeData Date_parse JSON_stringify_summary JSON_stringify_rows
          fetch_json false (setRegeneratePrompt directive st)).1
     = setRegeneratePrompt reset
         (analyzeData Date_parse JSON_stringify_summary JSON_stringify_rows
            fetch_json false st).1.
Proof.
  unfold analyzeData. cbn [data setRegeneratePrompt].
  destruct (data st) as [rows|]; [|by split].
  destruct (length rows =? 0)%nat; [by split|].
  cbn [userPrompt fileName headers regeneratePrompt setRegeneratePrompt fst snd].
  split; [reflexivity|].
  destruct (fetch_json _) as [result|err]; [|reflexivity].
  destruct (content result) as [[|block blocks]|]; reflexivity.
Qed.

(** ** The upload handler, further *)

Section UploadOutcomes.

Variable WorkSheet : Type.
Variable Papa_parse : string -> list PapaCallback * option JSError.
Variable XLSX_read : list Byte.byte -> JSResult (WorkBook WorkSheet).
Variable XLSX_utils_sheet_to_json : option WorkSheet -> JSResult (list DataRow).

Local Abbreviation upload :=
  (handleFileUpload WorkSheet Papa_parse XLSX_read XLSX_utils_sheet_to_json).
Local Abbreviation body_of :=
  (uploadBody WorkSheet Papa_parse XLSX_read XLSX_utils_sheet_to_json).

Lemma papaCallbacks_keep (callbacks : list PapaCallback) (st : State) :
  (foldl papaCallback st callbacks).(isAnalyzing) = st.(isAnalyzing)
  /\ (foldl papaCallback st callbacks).(regeneratePrompt) = st.(regeneratePrompt).
Proof.
  revert st. induction callbacks as [|cb cbs IH]; intros st; [done|].
  cbn [foldl]. destruct (IH (papaCallback st cb)) as (Ha & Hp).
  rewrite Ha, Hp. by destruct cb.
Qed.

Lemma uploadBody_keep (uploadedFile : File) (st : State) :
  (body_of uploadedFile st).(isAnalyzing) = st.(isAnalyzing)
  /\ (body_of uploadedFile st).(regeneratePrompt) = st.(regeneratePrompt).
Proof.
  unfold uploadBody.
  case_bool_decide as Hcsv.
  - destruct (file_text uploadedFile) as [text|err]; [|done].
    destruct (Papa_parse text) as [callbacks thrown].
    destruct (papaCallbacks_keep callbacks st) as (Ha & Hp).
    destruct thrown; cbn; by rewrite ?Ha, ?Hp.
  - case_bool_decide as Hxl; [|done].
    destruct (file_arrayBuffer uploadedFile) as [buffer|err]; [|done].
    destruct (XLSX_read buffer) as [workbook|err]; [|done].
    destruct (XLSX_utils_sheet_to_json _) as [[|row jsonData]|err]; done.
Qed.

Lemma uploadBody_csv (uploadedFile : File) (st : State) (text : string) :
  fileExtension uploadedFile.(file_name) = Some "csv" ->
  uploadedFile.(file_text) = Returns text ->
  body_of uploadedFile st
  = match (Papa_parse text).2 with
    | Some err => uploadCatch err (foldl papaCallback st (Papa_parse text).1)
    | None => foldl papaCallback st (Papa_parse text).1
    end.
Proof.
  intros Hext Htext. unfold uploadBody.
  rewrite bool_decide_eq_true_2 by done. rewrite Htext.
  by destruct (Papa_parse text).
Qed.

Lemma uploadBody_spreadsheet (uploadedFile : File) (st : State) :
  fileExtension uploadedFile.(file_name) = Some "xlsx"
  \/ fileExtension uploadedFile.(file_name) = Some "xls" ->
  body_of uploadedFile st
  = match uploadedFile.(file_arrayBuffer) with
    | Throws err => uploadCatch err st
    | Returns arrayBuffer =>
        match XLSX_read arrayBuffer with
        | Throws err => uploadCatch err st
        | Returns workbook =>
            match XLSX_utils_sheet_to_json
                    (workbook.(Sheets WorkSheet)
                       !! default "undefined" (head workbook.(SheetNames WorkSheet)))
            with
            | Throws err => uploadCatch err st
            | Returns (row :: rest) =>
                setData (Some (row :: rest)) (setHeaders (Object_keys row) st)
            | Returns [] => st
            end
        end
    end.
Proof.
  intros Hext. unfold uploadBody.
  rewrite bool_decide_eq_false_2 by (destruct Hext as [-> | ->]; discriminate).
  rewrite bool_decide_eq_true_2.
  - destruct (file_arrayBuffer uploadedFile) as [arrayBuffer|err]; [|done].
    destruct (XLSX_read arrayBuffer) as [workbook|err]; [|done].
    by destruct (XLSX_utils_sheet_to_json _) as [[|row rest]|err].
  - destruct Hext as [-> | ->]; cbn.
    + apply list_elem_of_here.
    + apply list_elem_of_further, list_elem_of_here.
Qed.

End UploadOutcomes.

(** X9. No upload writes the analyzing flag or the refinement directive,
    whatever the file and whatever the parsers do; and a change event that
    carries no file changes nothing at all. *)
Theorem handleFileUpload_keeps_directive
  (WorkSheet : Type)
  (Papa_parse : string -> list PapaCallback * option JSError)
  (XLSX_read : list Byte.byte -> JSResult (WorkBook WorkSheet))
  (XLSX_utils_sheet_to_json : option WorkSheet -> JSResult (list DataRow))
  (e : ChangeEvent) (st : State) :
  (handleFileUpload WorkSheet Papa_parse XLSX_read XLSX_utils_sheet_to_json
     e st).(isAnalyzing) = st.(isAnalyzing)
  /\ (handleFileUpload WorkSheet Papa_parse XLSX_read XLSX_utils_sheet_to_json
        e st).(regeneratePrompt) = st.(regeneratePrompt)
  /\ (e.(target_files) = None \/ e.(target_files) = Some [] ->
      handleFileUpload WorkSheet Papa_parse XLSX_read XLSX_utils_sheet_to_json
        e st = st).
Proof.
  unfold handleFileUpload.
  destruct (target_files e ≫= head) as [uploadedFile|] eqn:He.
  - destruct (uploadBody_keep WorkSheet Papa_parse XLSX_read
                XLSX_utils_sheet_to_json uploadedFile
                (uploadPrelude uploadedFile st)) as (Ha & Hp).
    rewrite Ha, Hp. repeat split.
    intros [Hnone | Hnil]; [rewrite Hnone in He | rewrite Hnil in He]; discriminate.
  - done.
Qed.

Lemma handleFileUpload_keeps_directive_witness :
  handleFileUpload unit papa_no_rows xlsx_no_sheet sheet_no_rows
    {| target_files := Some [] |} (example_state (Some example_rows))
  = example_state (Some example_rows).
Proof.
  apply (handleFileUpload_keeps_directive unit papa_no_rows xlsx_no_sheet
           sheet_no_rows {| target_files := Some [] |}
           (example_state (Some example_rows))).
  right. reflexivity.
Defined.

(** X10. When reading or decoding the chosen file throws (the text of a
    [csv] file cannot be read, or the bytes of a spreadsheet cannot be
    read, or the workbook cannot be decoded, or its sheet cannot be
    converted), the upload ends with the error [Error reading file: ]
    followed by the message of what was thrown, and with the dataset and
    the column list as they were. *)
Theorem handleFileUpload_read_failure
  (WorkSheet : Type)
  (Papa_parse : string -> list PapaCallback * option JSError)
  (XLSX_read : list Byte.byte -> JSResult (WorkBook WorkSheet))
  (XLSX_utils_sheet_to_json : option WorkSheet -> JSResult (list DataRow))
  (e : ChangeEvent) (uploadedFile : File) (st : State) (err : JSError) :
  e.(target_files) ≫= head = Some uploadedFile ->
  (fileExtension uploadedFile.(file_name) = Some "csv"
   /\ uploadedFile.(file_text) = Throws err)
  \/ ((fileExtension uploadedFile.(file_name) = Some "xlsx"
       \/ fileExtension uploadedFile.(file_name) = Some "xls")
      /\ (uploadedFile.(file_arrayBuffer) = Throws err
          \/ (exists arrayBuffer,
                uploadedFile.(file_arrayBuffer) = Returns arrayBuffer
                /\ (XLSX_read arrayBuffer = Throws err
                    \/ exists workbook,
                         XLSX_read arrayBuffer = Returns workbook
                         /\ XLSX_utils_sheet_to_json
                              (workbook.(Sheets WorkSheet)
                                 !! default "undefined"
                                      (head workbook.(SheetNames WorkSheet)))
                            = Throws err)))) ->
  handleFileUpload WorkSheet Papa_parse XLSX_read XLSX_utils_sheet_to_json e st
  = {| file := Some uploadedFile; fileName := uploadedFile.(file_name);
       data := st.(data); headers := st.(headers);
       isAnalyzing := st.(isAnalyzing); report := None;
       error := Some ("Error reading file: " ++ errorMessage err);
       regeneratePrompt := st.(regeneratePrompt) |}.
Proof.
  intros He Hfail.
  rewrite (handleFileUpload_with_file _ _ _ _ _ _ _ He).
  destruct Hfail as [[Hext Htext] | [Hext Hfail]].
  - unfold uploadBody. rewrite bool_decide_eq_true_2 by done. by rewrite Htext.
  - rewrite uploadBody_spreadsheet by done.
    destruct Hfail as [Hbuf | (arrayBuffer & Hbuf & Hfail)]; rewrite Hbuf; [done|].
    destruct Hfail as [Hread | (workbook & Hread & Hjson)]; rewrite Hread; [done|].
    by rewrite Hjson.
Qed.

Lemma handleFileUpload_read_failure_witness :
  handleFileUpload unit papa_no_rows xlsx_corrupt sheet_no_rows
    (example_event "broken.xls") (example_state (Some example_rows))
  = {| file := Some (example_file "broken.xls"); fileName := "broken.xls";
       data := Some example_rows; headers := ["when"; "amount"; "note"];
       isAnalyzing := false; report := None;
       error := Some "Error reading file: Unsupported file format";
       regeneratePrompt := "focus on amounts" |}.
Proof.
  apply (handleFileUpload_read_failure unit papa_no_rows xlsx_corrupt
           sheet_no_rows (example_event "broken.xls") (example_file "broken.xls")
           (example_state (Some example_rows))
           (ErrorObject "Unsupported file format") eq_refl).
  right. split; [right; reflexivity|].
  right. exists []. split; [reflexivity|]. left. reflexivity.
Defined.



(** X12. A [csv] upload whose text is read and that the parser completes
    once, without error, replaces the dataset by the parsed rows and the
    column list by the parsed fields (none when the parser gives no
    fields), and leaves no error and no report. This holds for a parse with
    no row too, even over a loaded dataset: then neither the data preview
    nor the instructions are rendered, and an analysis is refused with the
    no-data error without any request. *)
Theorem handleFileUpload_csv_complete
  (Date_parse : string -> option Z)
  (JSON_stringify_summary : DataSummary -> string)
  (JSON_stringify_rows : list DataRow -> string)
  (fetch_json : Request -> JSResult ClaudeResponse)
  (WorkSheet : Type)
  (Papa_parse : string -> list PapaCallback * option JSError)
  (XLSX_read : list Byte.byte -> JSResult (WorkBook WorkSheet))
  (XLSX_utils_sheet_to_json : option WorkSheet -> JSResult (list DataRow))
  (e : ChangeEvent) (uploadedFile : File) (st : State) (text : string)
  (results : ParseResult) (isRegenerate : bool) :
  e.(target_files) ≫= head = Some uploadedFile ->
  fileExtension uploadedFile.(file_name) = Some "csv" ->
  uploadedFile.(file_text) = Returns text ->
  Papa_parse text = ([PapaComplete results], None) ->
  handleFileUpload WorkSheet Papa_parse XLSX_read XLSX_utils_sheet_to_json e st
  = {| file := Some uploadedFile; fileName := uploadedFile.(file_name);
       data := Some results.(results_data);
       headers := default [] results.(results_meta_fields);
       isAnalyzing := st.(isAnalyzing); report := None; error := None;
       regeneratePrompt := st.(regeneratePrompt) |}
  /\ (results.(results_data) = [] ->
      showsDataPreview
        (handleFileUpload WorkSheet Papa_parse XLSX_read XLSX_utils_sheet_to_json
           e st) = false
      /\ showsInstructions
           (handleFileUpload WorkSheet Papa_parse XLSX_read
              XLSX_utils_sheet_to_json e st) = false
      /\ analyzeData Date_parse JSON_stringify_summary JSON_stringify_rows
           fetch_json isRegenerate
           (handleFileUpload WorkSheet Papa_parse XLSX_read
              XLSX_utils_sheet_to_json e st)
         = (setError (Some "No data to analyze")
              (handleFileUpload WorkSheet Papa_parse XLSX_read
                 XLSX_utils_sheet_to_json e st), [])).
Proof.
  intros He Hext Htext Hparse.
  rewrite (handleFileUpload_with_file _ _ _ _ _ _ _ He).
  rewrite (uploadBody_csv _ _ _ _ _ _ text Hext Htext), Hparse.
  split; [reflexivity|]. intros Hrows. cbn [fst snd foldl papaCallback].
  split; [|split].
  - unfold showsDataPreview. cbn. by rewrite Hrows.
  - reflexivity.
  - apply analyzeData_no_data. right. cbn. by rewrite Hrows.
Qed.

Lemma handleFileUpload_csv_complete_witness :
  (handleFileUpload unit papa_no_rows xlsx_no_sheet sheet_no_rows
     (example_event "empty.csv") (example_state (Some example_rows))).(data)
  = Some []
  /\ (analyzeData Date_parse_date_only silent silent (answering_service "# Report")
        false
        (handleFileUpload unit papa_no_rows xlsx_no_sheet sheet_no_rows
           (example_event "empty.csv") (example_state (Some example_rows)))).2
     = [].
Proof.
  pose proof (handleFileUpload_csv_complete Date_parse_date_only silent silent
                (answering_service "# Report") unit papa_no_rows xlsx_no_sheet
                sheet_no_rows (example_event "empty.csv") (example_file "empty.csv")
                (example_state (Some example_rows)) "a,b"
                {| results_data := []; results_meta_fields := None |} false
                eq_refl eq_refl eq_refl eq_refl) as (H1 & H2).
  split; [by rewrite H1|].
  destruct (H2 eq_refl) as (_ & _ & H3). by rewrite H3.
Defined.

(** X13. After a file with an unsupported extension is chosen over a
    loaded dataset, the data preview is still rendered and an analysis
    sends the rows loaded before under the name of the rejected file: the
    summary of the request carries the new file name with the old rows and
    columns. *)
Theorem handleFileUpload_unsupported_then_analyze
  (Date_parse : string -> option Z)
  (JSON_stringify_summary : DataSummary -> string)
  (JSON_stringify_rows : list DataRow -> string)
  (fetch_json : Request -> JSResult ClaudeResponse)
  (WorkSheet : Type)
  (Papa_parse : string -> list PapaCallback * option JSError)
  (XLSX_read : list Byte.byte -> JSResult (WorkBook WorkSheet))
  (XLSX_utils_sheet_to_json : option WorkSheet -> JSResult (list DataRow))
  (e : ChangeEvent) (uploadedFile : File) (st : State) (rows : list DataRow)
  (isRegenerate : bool) :
  e.(target_files) ≫= head = Some uploadedFile ->
  fileExtension uploadedFile.(file_name) <> Some "csv" ->
  fileExtension uploadedFile.(file_name) <> Some "xlsx" ->
  fileExtension uploadedFile.(file_name) <> Some "xls" ->
  st.(data) = Some rows ->
  rows <> [] ->
  showsDataPreview
    (handleFileUpload WorkSheet Papa_parse XLSX_read XLSX_utils_sheet_to_json e st)
  = true
  /\ (analyzeData Date_parse JSON_stringify_summary JSON_stringify_rows fetch_json
        isRegenerate
        (handleFileUpload WorkSheet Papa_parse XLSX_read XLSX_utils_sheet_to_json
           e st)).2
     = [generationRequest
          (userPrompt JSON_stringify_summary JSON_stringify_rows isRegenerate
             st.(regeneratePrompt)
             (dataSummary Date_parse uploadedFile.(file_name) rows st.(headers))
             rows)].
Proof.
  intros He Hcsv Hxlsx Hxls Hdata Hne.
  rewrite (handleFileUpload_with_file _ _ _ _ _ _ _ He).
  rewrite uploadBody_unsupported by done.
  split.
  - unfold showsDataPreview. cbn. rewrite Hdata.
    destruct rows; [done|reflexivity].
  - by rewrite (analyzeData_with_data _ _ _ _ _ _ rows).
Qed.

Lemma handleFileUpload_unsupported_then_analyze_witness :
  (analyzeData Date_parse_date_only silent silent unreachable_service false
     (handleFileUpload unit papa_no_rows xlsx_no_sheet sheet_no_rows
        (example_event "notes.txt") (example_state (Some example_rows)))).2
  = [generationRequest
       (userPrompt silent silent false "focus on amounts"
          (dataSummary Date_parse_date_only "notes.txt" example_rows
             ["when"; "amount"; "note"])
          example_rows)].
Proof.
  exact (proj2 (handleFileUpload_unsupported_then_analyze Date_parse_date_only
                  silent silent unreachable_service unit papa_no_rows
                  xlsx_no_sheet sheet_no_rows (example_event "notes.txt")
                  (example_file "notes.txt") (example_state (Some example_rows))
                  example_rows false eq_refl ltac:(discriminate)
                  ltac:(discriminate) ltac:(discriminate) eq_refl
                  ltac:(discriminate))).
Defined.

(** ** The extension and the keys *)






Lemma insert_index_permutation (k : Z * string) (l : list (Z * string)) :
  insert_index k l ≡ₚ k :: l.
Proof.
  induction l as [|k' l IH]; cbn; [done|].
  destruct (fst k <=? fst k')%Z; [done|].
  rewrite IH. apply Permutation_swap.
Qed.

Lemma ascending_cons (x y : Z) (l : list Z) :
  ascending (x :: y :: l) = ((x <=? y)%Z && ascending (y :: l)).
Proof. reflexivity. Qed.

Lemma insert_index_ascending (k : Z * string) (l : list (Z * string)) :
  ascending (List.map fst l) = true ->
  ascending (List.map fst (insert_index k l)) = true.
Proof.
  induction l as [|k' l IH]; intros Hl; [reflexivity|].
  cbn [insert_index]. destruct (fst k <=? fst k')%Z eqn:E.
  - cbn [List.map] in *. by rewrite ascending_cons, E.
  - assert (Hle : (fst k' <=? fst k)%Z = true) by lia.
    destruct l as [|k'' l].
    + cbn [insert_index List.map]. by rewrite ascending_cons, Hle.
    + cbn [List.map] in Hl. rewrite ascending_cons in Hl.
      apply andb_true_iff in Hl as [H1 H2]. specialize (IH H2).
      cbn [insert_index] in *. destruct (fst k <=? fst k'')%Z eqn:E'.
      * cbn [List.map] in *. by rewrite ascending_cons, Hle.
      * cbn [List.map] in *. by rewrite ascending_cons, H1.
Qed.

Lemma index_keys_spec (keys : list string) :
  index_keys keys
  ≡ₚ omap (fun k => (fun n => (n, k)) <$> array_index k) keys
  /\ ascending (List.map fst (index_keys keys)) = true.
Proof.
  unfold index_keys.
  induction (omap (fun k => (fun n => (n, k)) <$> array_index k) keys)
    as [|p l [IHp IHa]]; [done|].
  cbn [foldr]. split.
  - by rewrite insert_index_permutation, IHp.
  - by apply insert_index_ascending.
Qed.

Lemma indexed_keys_filter (keys : list string) :
  List.map snd (omap (fun k => (fun n => (n, k)) <$> array_index k) keys)
  = List.filter (fun k => bool_decide (is_Some (array_index k))) keys.
Proof.
  induction keys as [|k keys IH]; [reflexivity|].
  cbn [omap list_omap List.filter]. cbn beta.
  destruct (array_index k) as [n|]; cbn; by rewrite ?IH.
Qed.

Lemma filter_both_permutation (p : string -> bool) (l : list string) :
  (List.filter p l ++ List.filter (fun k => negb (p k)) l)%list ≡ₚ l.
Proof.
  induction l as [|k l IH]; [done|].
  cbn [List.filter]. destruct (p k); cbn.
  - by rewrite IH.
  - rewrite <- Permutation_middle. by rewrite IH.
Qed.

Lemma no_indexed_keys (keys : list string) :
  Forall (fun k => array_index k = None) keys ->
  omap (fun k => (fun n => (n, k)) <$> array_index k) keys = [].
Proof.
  induction 1 as [|k keys Hk Hall IH]; [reflexivity|].
  cbn [omap list_omap]. cbn beta. rewrite Hk. exact IH.
Qed.

Lemma filter_no_indexed_keys (keys : list string) :
  Forall (fun k => array_index k = None) keys ->
  List.filter (fun k => negb (bool_decide (is_Some (array_index k)))) keys = keys.
Proof.
  induction 1 as [|k keys Hk Hall IH]; [reflexivity|].
  cbn [List.filter]. rewrite Hk. cbn. by rewrite IH.
Qed.

Lemma indexed_keys_values (keys : list string) :
  Forall (fun p : Z * string => array_index (snd p) = Some (fst p))
    (omap (fun k => (fun n => (n, k)) <$> array_index k) keys).
Proof.
  induction keys as [|k keys IH]; [constructor|].
  cbn [omap list_omap]. cbn beta. destruct (array_index k) as [n|] eqn:E; cbn.
  - by constructor.
  - exact IH.
Qed.

(** X15. [Object.keys] as the spreadsheet branch uses it for the column
    list loses and invents no key: the result is a rearrangement of the
    row's keys, with the keys that are array indices first, in ascending
    numeric order, and the other keys after them in their own order; a row
    with no array-index key gives its keys in their own order. *)
Theorem Object_keys_rearranges (row : DataRow) :
  Object_keys row ≡ₚ List.map fst row
  /\ (exists indexed : list (Z * string),
        Object_keys row
        = (List.map snd indexed
           ++ List.filter (fun k => negb (bool_decide (is_Some (array_index k))))
                (List.map fst row))%list
        /\ ascending (List.map fst indexed) = true
        /\ Forall (fun p : Z * string => array_index (snd p) = Some (fst p))
             indexed)
  /\ (Forall (fun k => array_index k = None) (List.map fst row) ->
      Object_keys row = List.map fst row).
Proof.
  unfold Object_keys.
  destruct (index_keys_spec (List.map fst row)) as [Hp Hasc].
  split; [|split].
  - rewrite Hp, indexed_keys_filter. apply filter_both_permutation.
  - exists (index_keys (List.map fst row)). split; [reflexivity|].
    split; [exact Hasc|]. rewrite Hp. apply indexed_keys_values.
  - intros Hall. unfold index_keys.
    by rewrite (no_indexed_keys _ Hall), (filter_no_indexed_keys _ Hall).
Qed.

Lemma Object_keys_rearranges_witness :
  Object_keys [("when", JNull); ("amount", JNumber 5); ("note", JNull)]
  = ["when"; "amount"; "note"].
Proof.
  apply (Object_keys_rearranges
           [("when", JNull); ("amount", JNumber 5); ("note", JNull)]).
  repeat constructor.
Defined.

(** ** White space *)

Lemma trimStart_blank (n : nat) :
  forall s : string,
    String.length s <= n ->
    (trimStart s = EmptyString <-> all_whitespace s = true).
Proof.
  induction n as [|n IH]; intros s Hlen.
  - destruct s; [done|cbn in Hlen; lia].
  - destruct s as [|a s1]; [done|]. cbn in Hlen.
    cbn [trimStart all_whitespace].
    destruct (is_space1 a); [apply IH; lia|].
    destruct s1 as [|b s2]; [done|]. cbn in Hlen.
    destruct (is_space2 a b); [apply IH; lia|].
    destruct s2 as [|c s3]; [done|]. cbn in Hlen.
    destruct (is_space3 a b c); [apply IH; lia|done].
Qed.

Lemma trimEnd_blank (s : string) :
  trimEnd s = EmptyString <-> all_whitespace s = true.
Proof.
  destruct s as [|a s]; [done|]. cbn [trimEnd].
  by destruct (all_whitespace (String a s)).
Qed.

Lemma trimEnd_cons (a : ascii) (s : string) :
  trimEnd (String a s)
  = if all_whitespace (String a s) then EmptyString else String a (trimEnd s).
Proof. reflexivity. Qed.

Lemma trimEnd_keeps_text (n : nat) :
  forall s : string,
    String.length s <= n ->
    all_whitespace s = false -> all_whitespace (trimEnd s) = false.
Proof.
  induction n as [|n IH]; intros s Hlen Hs.
  - destruct s; [done|cbn in Hlen; lia].
  - destruct s as [|a s1]; [done|]. cbn in Hlen.
    rewrite trimEnd_cons, Hs. cbn [all_whitespace] in *.
    destruct (is_space1 a); [apply IH; [lia|done]|].
    destruct s1 as [|b s2]; [done|]. cbn in Hlen.
    rewrite trimEnd_cons. destruct (all_whitespace (String b s2)); [done|].
    destruct (is_space2 a b); [apply IH; [lia|done]|].
    destruct s2 as [|c s3]; [done|]. cbn in Hlen.
    rewrite trimEnd_cons. destruct (all_whitespace (String c s3)); [done|].
    destruct (is_space3 a b c); [|done]. cbn [andb] in *. apply IH; [lia|done].
Qed.

Lemma trim_blank (s : string) :
  trim s = EmptyString <-> all_whitespace s = true.
Proof.
  unfold trim. split.
  - intros Htrim. apply (trimStart_blank _ _ (le_n _)) in Htrim.
    destruct (all_whitespace s) eqn:Hs; [done|].
    by rewrite (trimEnd_keeps_text _ s (le_n _) Hs) in Htrim.
  - intros Hs. apply trimEnd_blank in Hs. by rewrite Hs.
Qed.

(** X16. The [Regenerate Report] button is disabled exactly when an
    analysis is running or the directive is made of white space only: an
    empty directive, and one of blanks, tabs and line breaks, cannot be
    sent. *)
Theorem regenerateDisabled_blank (st : State) :
  regenerateDisabled st
  = st.(isAnalyzing) || all_whitespace st.(regeneratePrompt).
Proof.
  unfold regenerateDisabled. f_equal.
  destruct (trim (regeneratePrompt st)) eqn:Htrim.
  - symmetry. by apply trim_blank.
  - destruct (all_whitespace (regeneratePrompt st)) eqn:Hs; [|done].
    apply trim_blank in Hs. congruence.
Qed.

(** ** The component between events *)

Section ComponentFacts.

Variable Date_parse : string -> option Z.
Variable JSON_stringify_summary : DataSummary -> string.
Variable JSON_stringify_rows : list DataRow -> string.
Variable WorkSheet : Type.
Variable Papa_parse : string -> list PapaCallback * option JSError.
Variable XLSX_read : list Byte.byte -> JSResult (WorkBook WorkSheet).
Variable XLSX_utils_sheet_to_json : option WorkSheet -> JSResult (list DataRow).

Local Abbreviation upload :=
  (handleFileUpload WorkSheet Papa_parse XLSX_read XLSX_utils_sheet_to_json).
Local Abbreviation analyze :=
  (analyzeData Date_parse JSON_stringify_summary JSON_stringify_rows).


Lemma showsReport_report (st : State) :
  showsReport st = true ->
  exists text : string, st.(report) = Some text /\ text <> EmptyString.
Proof.
  unfold showsReport, truthy. destruct (report st) as [[|a text]|]; try done.
  intros _. by exists (String a text).
Qed.

Lemma upload_coherent (e : ChangeEvent) (st : State) :
  coherent st -> coherent (upload e st).
Proof.
  intros (Ha & Hr & Hf). unfold handleFileUpload.
  destruct (target_files e ≫= head) as [uploadedFile|]; [|done].
  destruct (uploadBody_frame WorkSheet Papa_parse XLSX_read
              XLSX_utils_sheet_to_json uploadedFile
              (uploadPrelude uploadedFile st)) as (Fr & Fn & Ff).
  destruct (uploadBody_keep WorkSheet Papa_parse XLSX_read
              XLSX_utils_sheet_to_json uploadedFile
              (uploadPrelude uploadedFile st)) as (Fa & _).
  unfold coherent. rewrite Fr, Fn, Ff, Fa. cbn. by repeat split.
Qed.

Lemma analyze_coherent (fetch_json : Request -> JSResult ClaudeResponse)
  (isRegenerate : bool) (st : State) :
  coherent st -> coherent (analyze fetch_json isRegenerate st).1.
Proof.
  intros Hst.
  assert (Hkeep : forall message, coherent (setError message st)).
  { intros message. destruct Hst as (Ha & Hr & Hf). by repeat split. }
  destruct (data st) as [[|row rows]|] eqn:Hdata.
  - rewrite analyzeData_no_data by auto. apply Hkeep.
  - destruct (analyzeData_shapes Date_parse JSON_stringify_summary
                JSON_stringify_rows fetch_json isRegenerate st (row :: rows)
                Hdata ltac:(done)) as (_ & [(text & ->) | (message & ->)]).
    + destruct Hst as (Ha & Hr & Hf). unfold coherent. cbn.
      repeat split; [|done]. intros _. by exists (row :: rows).
    + destruct Hst as (Ha & Hr & Hf). unfold coherent. by cbn.
  - rewrite analyzeData_no_data by auto. apply Hkeep.
Qed.

Lemma dispatch_coherent (ev : UIEvent) (st st' : State)
  (requests : list Request) (effects : list PrintEffect) :
  coherent st ->
  dispatch Date_parse JSON_stringify_summary JSON_stringify_rows WorkSheet
    Papa_parse XLSX_read XLSX_utils_sheet_to_json ev st
  = Some (st', requests, effects) ->
  coherent st'.
Proof.
  intros Hst. destruct ev as [e|answer|value|answer|opened]; cbn [dispatch].
  - intros [= <- _ _]. by apply upload_coherent.
  - destruct (showsDataPreview st && negb (generateDisabled st)); [|done].
    pose proof (analyze_coherent (fun _ => answer) false st Hst) as H.
    destruct (analyzeData _ _ _ _ false st) as [st1 requests1].
    by intros [= <- _ _].
  - destruct (showsReport st); [|done]. intros [= <- _ _].
    destruct Hst as (Ha & Hr & Hf). by repeat split.
  - destruct (showsReport st && negb (regenerateDisabled st)); [|done].
    pose proof (analyze_coherent (fun _ => answer) true st Hst) as H.
    destruct (analyzeData _ _ _ _ true st) as [st1 requests1].
    by intros [= <- _ _].
  - destruct (showsReport st); [|done]. unfold downloadPDF.
    destruct opened; intros [= <- _ _]; [done|].
    destruct Hst as (Ha & Hr & Hf). by repeat split.
Qed.

End ComponentFacts.

(** X17. In every state the component reaches from its first render, one
    handler running to its end at a time: no analysis is marked as running;
    a report is held only while a non-empty dataset is loaded; and the file
    name cell is the name of the file last chosen, or empty, with no
    dataset, when no file was chosen yet. *)
Theorem reachable_coherent
  (Date_parse : string -> option Z)
  (JSON_stringify_summary : DataSummary -> string)
  (JSON_stringify_rows : list DataRow -> string)
  (WorkSheet : Type)
  (Papa_parse : string -> list PapaCallback * option JSError)
  (XLSX_read : list Byte.byte -> JSResult (WorkBook WorkSheet))
  (XLSX_utils_sheet_to_json : option WorkSheet -> JSResult (list DataRow))
  (st : State) :
  reachable Date_parse JSON_stringify_summary JSON_stringify_rows WorkSheet
    Papa_parse XLSX_read XLSX_utils_sheet_to_json st ->
  st.(isAnalyzing) = false
  /\ (st.(report) <> None ->
      exists rows : list DataRow, st.(data) = Some rows /\ rows <> [])
  /\ match st.(file) with
     | Some f => st.(fileName) = f.(file_name)
     | None => st.(fileName) = EmptyString /\ st.(data) = None
     end.
Proof.
  induction 1 as [|ev st st' requests effects Hreach IH Hstep].
  - by repeat split.
  - exact (dispatch_coherent _ _ _ _ _ _ _ ev st st' requests effects IH Hstep).
Qed.

(** The state after a spreadsheet with the rows of [example_rows] was
    chosen and a report was generated from it. *)
Lemma example_reachable :
  reachable Date_parse_date_only silent silent unit papa_no_rows xlsx_no_sheet
    sheet_example_rows
    {| file := Some (example_file "sales.xlsx"); fileName := "sales.xlsx";
       data := Some example_rows; headers := ["when"; "amount"; "note"];
       isAnalyzing := false; report := Some "# Report"; error := None;
       regeneratePrompt := EmptyString |}.
Proof.
  eapply (reachable_step _ _ _ _ _ _ _
            (GenerateClicked
               (Returns {| content := Some [ {| block_type := "text";
                                                block_text := "# Report" |} ] |}))
            {| file := Some (example_file "sales.xlsx"); fileName := "sales.xlsx";
               data := Some example_rows; headers := ["when"; "amount"; "note"];
               isAnalyzing := false; report := None; error := None;
               regeneratePrompt := EmptyString |});
    [|reflexivity].
  eapply (reachable_step _ _ _ _ _ _ _ (FileChosen (example_event "sales.xlsx"))
            initialState);
    [apply reachable_initial|reflexivity].
Defined.

Lemma reachable_coherent_witness :
  exists rows : list DataRow, Some example_rows = Some rows /\ rows <> [].
Proof.
  pose proof (reachable_coherent Date_parse_date_only silent silent unit
                papa_no_rows xlsx_no_sheet sheet_example_rows _
                example_reachable) as (_ & H & _).
  apply H. discriminate.
Defined.





(** X19. An export is offered only while a non-empty report is shown. It
    sends no request and never writes the report, the dataset or the
    directive. When the print window opens the state is left as it is and
    the window receives, in this order, the document shell holding the file
    name and the rendered report, the close of the document and a print
    after 250 ms; when it does not open, nothing is written and the only
    change is the error message. *)
Theorem dispatch_export
  (Date_parse : string -> option Z)
  (JSON_stringify_summary : DataSummary -> string)
  (JSON_stringify_rows : list DataRow -> string)
  (WorkSheet : Type)
  (Papa_parse : string -> list PapaCallback * option JSError)
  (XLSX_read : list Byte.byte -> JSResult (WorkBook WorkSheet))
  (XLSX_utils_sheet_to_json : option WorkSheet -> JSResult (list DataRow))
  (opened : bool) (st st' : State)
  (requests : list Request) (effects : list PrintEffect) :
  dispatch Date_parse JSON_stringify_summary JSON_stringify_rows WorkSheet
    Papa_parse XLSX_read XLSX_utils_sheet_to_json (ExportClicked opened) st
  = Some (st', requests, effects) ->
  requests = []
  /\ exists text : string,
       st.(report) = Some text /\ text <> EmptyString
       /\ (opened = true ->
           st' = st
           /\ effects
              = [DocumentWrite (documentHead ++ st.(fileName) ++ documentStyle
                                ++ marked text ++ documentTail);
                 DocumentClose; PrintAfter 250])
       /\ (opened = false ->
           st' = setError
                   (Some "Unable to open print window. Please check your browser settings.")
                   st
           /\ effects = []).
Proof.
  cbn [dispatch]. destruct (showsReport st) eqn:Hshow; [|done].
  destruct (showsReport_report st Hshow) as (text & Htext & Hne).
  unfold downloadPDF, exportDocument. rewrite Htext. cbn [default].
  destruct opened; intros [= <- <- <-]; (split; [reflexivity|]);
    exists text; by repeat split.
Qed.

Lemma dispatch_export_witness :
  exists text : string,
    report (example_state None) = Some text /\ text <> EmptyString.
Proof.
  destruct (proj2 (dispatch_export Date_parse_date_only silent silent unit
                     papa_no_rows xlsx_no_sheet sheet_no_rows true
                     (example_state None) _ _ _ eq_refl))
    as (text & Htext & Hne & _).
  exists text. by split.
Defined.

(** X20. After an analysis that yields a report, no error is shown and
    the [Regenerate Report] button is disabled, the directive being empty
    again, while [Generate Report] is enabled. The report section is shown
    only if the text of the answer is not empty: an answer whose first
    content segment is the empty text leaves neither report nor error on
    the screen. *)
Theorem analyzeData_success_view
  (Date_parse : string -> option Z)
  (JSON_stringify_summary : DataSummary -> string)
  (JSON_stringify_rows : list DataRow -> string)
  (fetch_json : Request -> JSResult ClaudeResponse)
  (isRegenerate : bool) (st : State) (rows : list DataRow)
  (result : ClaudeResponse) (block : ContentBlock) (blocks : list ContentBlock) :
  st.(data) = Some rows ->
  rows <> [] ->
  fetch_json (analysisRequest Date_parse JSON_stringify_summary
                JSON_stringify_rows isRegenerate st rows) = Returns result ->
  result.(content) = Some (block :: blocks) ->
  showsError (analyzeData Date_parse JSON_stringify_summary JSON_stringify_rows
                fetch_json isRegenerate st).1 = false
  /\ regenerateDisabled
       (analyzeData Date_parse JSON_stringify_summary JSON_stringify_rows
          fetch_json isRegenerate st).1 = true
  /\ generateDisabled
       (analyzeData Date_parse JSON_stringify_summary JSON_stringify_rows
          fetch_json isRegenerate st).1 = false
  /\ showsDataPreview
       (analyzeData Date_parse JSON_stringify_summary JSON_stringify_rows
          fetch_json isRegenerate st).1 = true
  /\ showsReport
       (analyzeData Date_parse JSON_stringify_summary JSON_stringify_rows
          fetch_json isRegenerate st).1
     = negb (String.eqb block.(block_text) EmptyString).
Proof.
  intros Hdata Hne Hfetch Hcontent.
  rewrite (analyzeData_with_data _ _ _ _ _ _ rows Hdata Hne).
  rewrite Hfetch, Hcontent. cbn [fst].
  unfold showsError, regenerateDisabled, generateDisabled, showsDataPreview,
    showsReport. cbn. rewrite Hdata.
  repeat split.
  - destruct rows; [done|reflexivity].
  - by destruct (block_text block).
Qed.

Lemma analyzeData_success_view_witness :
  showsReport
    (analyzeData Date_parse_date_only silent silent (answering_service EmptyString)
       false (example_state (Some example_rows))).1 = false
  /\ showsError
       (analyzeData Date_parse_date_only silent silent
          (answering_service EmptyString) false
          (example_state (Some example_rows))).1 = false.
Proof.
  pose proof (analyzeData_success_view Date_parse_date_only silent silent
                (answering_service EmptyString) false
                (example_state (Some example_rows)) example_rows _ _ _
                eq_refl ltac:(discriminate) eq_refl eq_refl)
    as (H1 & _ & _ & _ & H2).
  split; [exact H2 | exact H1].
Defined.


